(** * Kraken exchange client: request signing and the request agent

    A shallow embedding of [src/index.ts] (kraken-cryptoexchange-api) and the
    properties of its signer, nonce generator, raw agent and endpoint
    methods.

    Layout:
    - [Bytes], [Sha2], [Hmac], [Base64]: the Node built-ins the signer calls
      ([crypto.createHash], [crypto.createHmac], [Buffer]), written out so
      that every definition below evaluates;
    - [Js]: the fragment of JavaScript values, objects and string coercions
      the client relies on, and [qs.stringify] for flat objects;
    - [Kraken]: the client itself, function by function;
    - the theorems. *)

From Stdlib Require Import ZArith List Bool Arith Lia.
From Stdlib.Strings Require Import String Ascii Byte.
From Stdlib Require Import DecimalString DecimalZ DecimalPos.
Import ListNotations.

Local Open Scope Z_scope.

(* ===================================================================== *)
(** ** Byte buffers *)
(* ===================================================================== *)

Module Bytes.

(** A Node [Buffer]. *)
Definition Buffer := list byte.

Definition byte_to_Z (b : byte) : Z := Z.of_N (Byte.to_N b).

Definition byte_of_Z (z : Z) : byte :=
  match Byte.of_N (Z.to_N (z mod 256)) with
  | Some b => b
  | None => x00
  end.

Definition char_code (c : ascii) : Z := Z.of_N (N_of_ascii c).

Definition char_of_code (z : Z) : ascii := ascii_of_N (Z.to_N (z mod 256)).

(** Big-endian rendering of [z] on [n] bytes. *)
Fixpoint be_bytes (n : nat) (z : Z) : list Z :=
  match n with
  | O => []
  | S k => (Z.shiftr z (8 * Z.of_nat k)) mod 256 :: be_bytes k z
  end.

(** Big-endian value of a byte string. *)
Definition be_value (bs : list Z) : Z :=
  fold_left (fun acc b => acc * 256 + b) bs 0.

(** Cut a list in pieces of [n] elements; [fuel] bounds the number of
    pieces. *)
Fixpoint chunks {A} (fuel : nat) (n : nat) (l : list A) : list (list A) :=
  match fuel, l with
  | O, _ => []
  | _, [] => []
  | S f, _ => firstn n l :: chunks f n (skipn n l)
  end.

Definition hex_digit (z : Z) : ascii :=
  char_of_code (if z <? 10 then 48 + z else 55 + z).

Definition hex_digit_lower (z : Z) : ascii :=
  char_of_code (if z <? 10 then 48 + z else 87 + z).

(** Lower-case hexadecimal dump, as [digest('hex')] prints a buffer. *)
Fixpoint to_hex (b : Buffer) : string :=
  match b with
  | [] => EmptyString
  | x :: r =>
      String (hex_digit_lower (byte_to_Z x / 16))
        (String (hex_digit_lower (byte_to_Z x mod 16)) (to_hex r))
  end.

End Bytes.

(* ===================================================================== *)
(** ** SHA-2 (FIPS 180-4): [crypto.createHash] *)
(* ===================================================================== *)

Module Sha2.
Import Bytes.

(** The two members of the family the signer uses differ in word size,
    number of rounds and rotation amounts only. *)
Record params := {
  wbits  : Z;            (* word size in bits *)
  rounds : nat;          (* rounds per block *)
  Sig0   : Z * Z * Z;    (* rotations of the big sigma 0 *)
  Sig1   : Z * Z * Z;
  sig0   : Z * Z * Z;    (* rotate, rotate, shift of the small sigma 0 *)
  sig1   : Z * Z * Z;
}.

Definition p256 : params :=
  {| wbits := 32; rounds := 64;
     Sig0 := (2, 13, 22); Sig1 := (6, 11, 25);
     sig0 := (7, 18, 3);  sig1 := (17, 19, 10) |}.

Definition p512 : params :=
  {| wbits := 64; rounds := 80;
     Sig0 := (28, 34, 39); Sig1 := (14, 18, 41);
     sig0 := (1, 8, 7);    sig1 := (19, 61, 6) |}.

(** *** The constants: fractional parts of roots of the first primes *)

Definition is_prime (n : Z) : bool :=
  (1 <? n) &&
  forallb (fun d => negb (n mod (Z.of_nat d) =? 0)) (seq 2 (Z.to_nat n - 2)).

Definition first_primes (k : nat) : list Z :=
  firstn k (filter is_prime (map Z.of_nat (seq 2 420))).

(** Integer cube root, one bit at a time from the top. *)
Fixpoint icbrt_bits (n : Z) (bits : nat) (r : Z) : Z :=
  match bits with
  | O => r
  | S b =>
      let c := r + 2 ^ Z.of_nat b in
      icbrt_bits n b (if c * c * c <=? n then c else r)
  end.

Definition icbrt (n : Z) : Z := icbrt_bits n 80 0.

Definition round_constants (p : params) : list Z :=
  map (fun q => icbrt (q * 2 ^ (3 * wbits p)) mod 2 ^ wbits p)
      (first_primes (rounds p)).

Definition initial_hash (p : params) : list Z :=
  map (fun q => Z.sqrt (q * 2 ^ (2 * wbits p)) mod 2 ^ wbits p)
      (first_primes 8).

Definition K256 : list Z := Eval vm_compute in round_constants p256.
Definition K512 : list Z := Eval vm_compute in round_constants p512.
Definition H256 : list Z := Eval vm_compute in initial_hash p256.
Definition H512 : list Z := Eval vm_compute in initial_hash p512.

Section Core.
Variable p : params.
Variable K : list Z.
Variable H0 : list Z.

Let w := wbits p.

Definition wrap (x : Z) : Z := x mod 2 ^ w.
Definition add (x y : Z) : Z := wrap (x + y).
Definition rotr (n x : Z) : Z :=
  wrap (Z.lor (Z.shiftr x n) (Z.shiftl x (w - n))).
Definition shr (n x : Z) : Z := Z.shiftr x n.
Definition Ch (x y z : Z) : Z :=
  Z.lxor (Z.land x y) (Z.land (Z.lxor x (Z.ones w)) z).
Definition Maj (x y z : Z) : Z :=
  Z.lxor (Z.lxor (Z.land x y) (Z.land x z)) (Z.land y z).
Definition big_sigma (t : Z * Z * Z) (x : Z) : Z :=
  let '(a, b, c) := t in Z.lxor (Z.lxor (rotr a x) (rotr b x)) (rotr c x).
Definition small_sigma (t : Z * Z * Z) (x : Z) : Z :=
  let '(a, b, c) := t in Z.lxor (Z.lxor (rotr a x) (rotr b x)) (shr c x).

(** Padding: the byte 0x80, zeroes, then the bit length on [w/4] bytes,
    up to a whole number of blocks of [2w] bytes. *)
Definition pad (msg : list Z) : list Z :=
  let len := Z.of_nat (List.length msg) in
  let lenbytes := w / 4 in
  let zeros := (- (len + 1 + lenbytes)) mod (2 * w) in
  msg ++ [128] ++ repeat 0 (Z.to_nat zeros)
      ++ be_bytes (Z.to_nat lenbytes) (8 * len).

Definition words_of (bs : list Z) : list Z :=
  map be_value (chunks (List.length bs) (Z.to_nat (w / 8)) bs).

(** Message schedule: [n] more words after the ones in [ws]. *)
Fixpoint extend (n : nat) (ws : list Z) : list Z :=
  match n with
  | O => ws
  | S n' =>
      let t := List.length ws in
      let g i := nth (t - i) ws 0 in
      extend n'
        (ws ++ [add (add (small_sigma (sig1 p) (g 2%nat)) (g 7%nat))
                    (add (small_sigma (sig0 p) (g 15%nat)) (g 16%nat))])
  end.

Definition schedule (block : list Z) : list Z :=
  extend (rounds p - 16) block.

Definition round (st : list Z) (kw : Z * Z) : list Z :=
  match st with
  | [a; b; c; d; e; f; g; h] =>
      let t1 := add (add (add h (big_sigma (Sig1 p) e))
                          (add (Ch e f g) (fst kw))) (snd kw) in
      let t2 := add (big_sigma (Sig0 p) a) (Maj a b c) in
      [add t1 t2; a; b; c; add d t1; e; f; g]
  | _ => st
  end.

Definition compress (h : list Z) (block : list Z) : list Z :=
  let st := fold_left round (combine K (schedule block)) h in
  map (fun xy => add (fst xy) (snd xy)) (combine h st).

Definition digest_words (msg : list Z) : list Z :=
  let ws := words_of (pad msg) in
  fold_left compress (chunks (List.length ws) 16 ws) H0.

Definition digest (msg : Buffer) : Buffer :=
  map byte_of_Z
      (flat_map (be_bytes (Z.to_nat (w / 8)))
                (digest_words (map byte_to_Z msg))).

Definition block_bytes : nat := Z.to_nat (2 * w).
End Core.

Definition sha256 : Buffer -> Buffer := digest p256 K256 H256.
Definition sha512 : Buffer -> Buffer := digest p512 K512 H512.

End Sha2.

(* ===================================================================== *)
(** ** HMAC (RFC 2104): [crypto.createHmac] *)
(* ===================================================================== *)

Module Hmac.
Import Bytes.

Definition xor_with (c : Z) (b : byte) : byte :=
  byte_of_Z (Z.lxor (byte_to_Z b) c).

Definition hmac (H : Buffer -> Buffer) (block : nat)
           (key msg : Buffer) : Buffer :=
  let k0 := if (block <? List.length key)%nat then H key else key in
  let k := k0 ++ repeat x00 (block - List.length k0) in
  H (map (xor_with 92) k ++ H (map (xor_with 54) k ++ msg)).

Definition hmac_sha512 : Buffer -> Buffer -> Buffer :=
  hmac Sha2.sha512 (Sha2.block_bytes Sha2.p512).

End Hmac.


(* ===================================================================== *)
(** ** Base64, as Node's [Buffer] reads and writes it *)
(* ===================================================================== *)

Module Base64.
Import Bytes.

Definition alphabet : string :=
  "ABCDEFGHIJKLMNOPQRSTUVWXYZabcdefghijklmnopqrstuvwxyz0123456789+/".

Definition sextet_char (z : Z) : ascii :=
  match String.get (Z.to_nat z) alphabet with
  | Some c => c
  | None => "="%char
  end.

(** [buf.toString('base64')] and [digest('base64')]: the standard
    alphabet, padded with [=]. *)
Fixpoint encode_Z (bs : list Z) : string :=
  match bs with
  | a :: b :: c :: r =>
      String (sextet_char (a / 4))
        (String (sextet_char ((a mod 4) * 16 + b / 16))
           (String (sextet_char ((b mod 16) * 4 + c / 64))
              (String (sextet_char (c mod 64)) (encode_Z r))))
  | [a; b] =>
      String (sextet_char (a / 4))
        (String (sextet_char ((a mod 4) * 16 + b / 16))
           (String (sextet_char ((b mod 16) * 4)) "="))
  | [a] =>
      String (sextet_char (a / 4))
        (String (sextet_char ((a mod 4) * 16)) "==")
  | [] => EmptyString
  end.

Definition encode (b : Buffer) : string := encode_Z (map byte_to_Z b).

(** Node's decoding table: both the standard and the URL-safe alphabet are
    legal; every other character, [=] included, is not. *)
Definition unbase64 (c : ascii) : option Z :=
  let n := char_code c in
  if (65 <=? n) && (n <=? 90) then Some (n - 65)
  else if (97 <=? n) && (n <=? 122) then Some (n - 71)
  else if (48 <=? n) && (n <=? 57) then Some (n + 4)
  else if (n =? 43) || (n =? 45) then Some 62
  else if (n =? 47) || (n =? 95) then Some 63
  else None.

(** The decoder never rejects its input: an illegal character is skipped
    and the first [=] ends the decoding. *)
Fixpoint sextets (s : string) : list Z :=
  match s with
  | EmptyString => []
  | String c r =>
      if (c =? "=")%char then []
      else match unbase64 c with
           | Some v => v :: sextets r
           | None => sextets r
           end
  end.

(** A byte is written as soon as its two sextets are there; a last lone
    sextet is dropped. *)
Fixpoint bytes_of_sextets (l : list Z) : list Z :=
  match l with
  | a :: b :: c :: d :: r =>
      a * 4 + b / 16 :: (b mod 16) * 16 + c / 4 :: (c mod 4) * 64 + d
        :: bytes_of_sextets r
  | [a; b; c] => [a * 4 + b / 16; (b mod 16) * 16 + c / 4]
  | [a; b] => [a * 4 + b / 16]
  | _ => []
  end.

(** [new Buffer(s, 'base64')]. *)
Definition decode (s : string) : Buffer :=
  map byte_of_Z (bytes_of_sextets (sextets s)).

(** A string in canonical form: legal characters of the standard
    alphabet, a length that is a multiple of four, [=] only as the last
    one or two characters. *)
Definition standard_char (c : ascii) : bool :=
  match unbase64 c with
  | Some _ => negb ((c =? "-")%char || (c =? "_")%char)
  | None => false
  end.

Fixpoint well_formed (s : string) : bool :=
  match s with
  | EmptyString => true
  | String a (String b (String c (String d r))) =>
      standard_char a && standard_char b &&
      match r with
      | EmptyString =>
          (standard_char c && (standard_char d || (d =? "=")%char))
          || ((c =? "=")%char && (d =? "=")%char)
      | _ => standard_char c && standard_char d && well_formed r
      end
  | _ => false
  end.

End Base64.

(* ===================================================================== *)
(** ** The JavaScript fragment the client relies on *)
(* ===================================================================== *)

Module Js.
Import Bytes.

(** Strings are sequences of characters with codes below 256: every
    string the client builds (paths, digits, percent-encoded query
    strings, Latin-1 digests) is of that kind. *)

(** Primitive values. [Num] carries an integer-valued number (a double
    whose value is an integer); fractions, NaN and the infinities are
    outside the embedding. *)
Inductive value :=
| Undefined
| Null
| Bool (b : bool)
| Num (n : Z)
| Str (s : string).

(** An object: its own enumerable properties in insertion order. *)
Definition object := list (string * value).

(** [o[k]]: a missing property reads as [undefined]. *)
Fixpoint get (o : object) (k : string) : value :=
  match o with
  | [] => Undefined
  | (k', v) :: r => if String.eqb k' k then v else get r k
  end.

Fixpoint has (o : object) (k : string) : bool :=
  match o with
  | [] => false
  | (k', _) :: r => String.eqb k' k || has r k
  end.

(** [o[k] = v]: an existing property keeps its place, a new one goes
    last. *)
Fixpoint set (o : object) (k : string) (v : value) : object :=
  match o with
  | [] => [(k, v)]
  | (k', v') :: r =>
      if String.eqb k' k then (k', v) :: r else (k', v') :: set r k v
  end.

(** [{ ...a, ...b }]. *)
Definition spread (a b : object) : object :=
  fold_left (fun acc kv => set acc (fst kv) (snd kv)) b a.

(** [{ ...a, ...b }] where [b] may be [undefined]. *)
Definition spread_opt (a : object) (b : option object) : object :=
  match b with
  | Some o => spread a o
  | None => a
  end.

Definition keys (o : object) : list string := map fst o.

(** *** Number::toString and ToString *)

Definition decimal (n : Z) : string := NilZero.string_of_int (Z.to_int n).

Fixpoint strip_zeros_rev (ds : list ascii) : list ascii :=
  match ds with
  | c :: r => if (c =? "0")%char then strip_zeros_rev r else ds
  | [] => []
  end.

(** Scientific form, used from 10^21 on: first digit, the others without
    their trailing zeroes, the exponent. *)
Definition exponential (m : Z) : string :=
  match list_ascii_of_string (decimal m) with
  | [] => EmptyString
  | d :: rest =>
      let frac := rev (strip_zeros_rev (rev rest)) in
      (String d
         (match frac with
          | [] => EmptyString
          | _ => String "." (string_of_list_ascii frac)
          end)
       ++ "e+" ++ decimal (Z.of_nat (List.length rest)))%string
  end.

(** [Number.isSafeInteger]: the integers a number holds exactly. *)
Definition safe_integer (n : Z) : Prop := Z.abs n < 2 ^ 53.

(** The number nearest to the integer [x]: a double keeps 53 significant
    bits and rounds to nearest, ties to the even significand. Below 2^53
    nothing is lost. (Magnitudes stay far below the overflow threshold
    here.) *)
Definition nearest_double (x : Z) : Z :=
  let m := Z.abs x in
  if m <? 2 ^ 53 then x
  else
    let e := Z.log2 m - 52 in
    let q := m / 2 ^ e in
    let r := m mod 2 ^ e in
    let half := 2 ^ (e - 1) in
    let q' := if (half <? r) || ((r =? half) && Z.odd q) then q + 1 else q in
    Z.sgn x * (q' * 2 ^ e).

(** The digits Number::toString prints for a number [m] beyond the safe
    integers: the integer with the fewest significant digits that still
    reads back as [m], the closest to [m] if there are several (the even
    one on a tie). [p] is the weight of the last digit kept. *)
Fixpoint shortest_digits (fuel : nat) (m p : Z) : Z :=
  match fuel with
  | O => m
  | S f =>
      let lo := m / p in
      let below := lo * p in
      let above := (lo + 1) * p in
      let ok v := nearest_double v =? m in
      if ok below && ok above then
        if m - below <? above - m then below
        else if above - m <? m - below then above
        else if Z.even lo then below else above
      else if ok below then below
      else if ok above then above
      else shortest_digits f m (p / 10)
  end.

Definition shortest_round_trip (m : Z) : Z :=
  let d := String.length (decimal m) in
  shortest_digits d m (10 ^ Z.of_nat (d - 1)).

(** Number::toString on an integer-valued number: the exact digits on the
    safe integers, the shortest digits that read back further up, in
    scientific form from 10^21 on. *)
Definition Number_toString (n : Z) : string :=
  if Z.abs n <? 2 ^ 53 then decimal n
  else
    let sign := if n <? 0 then "-"%string else ""%string in
    let v := shortest_round_trip (Z.abs n) in
    String.append sign (if v <? 10 ^ 21 then decimal v else exponential v).

(** [x * y] on integer-valued numbers: the exact product, rounded. *)
Definition Number_multiply (x y : Z) : Z := nearest_double (x * y).

(** ToString, as applied by [String(v)], a template literal and the
    [+] operator with a string operand. *)
Definition to_string (v : value) : string :=
  match v with
  | Undefined => "undefined"
  | Null => "null"
  | Bool true => "true"
  | Bool false => "false"
  | Num n => Number_toString n
  | Str s => s
  end.

(** [v + s] with [s] a string. *)
Definition plus_string (v : value) (s : string) : string :=
  (to_string v ++ s)%string.

(** *** String encodings of [Buffer] and [crypto] *)

(** [digest('latin1')]: one character per byte. *)
Definition latin1_decode (b : Buffer) : string := string_of_list_byte b.

(** [update(s, 'latin1')]: one byte per character. *)
Definition latin1_encode (s : string) : Buffer := list_byte_of_string s.

(** [update(s)]: UTF-8. *)
Definition utf8_char (c : ascii) : list Z :=
  let n := char_code c in
  if n <? 128 then [n] else [192 + n / 64; 128 + n mod 64].

Definition utf8_encode (s : string) : Buffer :=
  map byte_of_Z (flat_map utf8_char (list_ascii_of_string s)).

(** *** [qs.stringify] on an object of primitives (default options) *)

Definition unreserved (c : ascii) : bool :=
  let n := char_code c in
  (n =? 45) || (n =? 46) || (n =? 95) || (n =? 126)
  || ((48 <=? n) && (n <=? 57))
  || ((65 <=? n) && (n <=? 90))
  || ((97 <=? n) && (n <=? 122)).

Definition hexTable (z : Z) : string :=
  String "%" (String (hex_digit (z / 16)) (String (hex_digit (z mod 16)) "")).

(** [utils.encode]: an unreserved character stands for itself, any other
    is replaced by the [%XX] of its UTF-8 bytes. *)
Definition encode_char (c : ascii) : string :=
  if unreserved c then String c ""
  else String.concat "" (map hexTable (utf8_char c)).

Fixpoint encode (s : string) : string :=
  match s with
  | EmptyString => EmptyString
  | String c r => String.append (encode_char c) (encode r)
  end.

(** One [key=value] pair; a property holding [undefined] is left out and
    [null] is written as the empty string. *)
Definition stringify_pair (kv : string * value) : list string :=
  match snd kv with
  | Undefined => []
  | Null => [(encode (fst kv) ++ "=")%string]
  | v => [(encode (fst kv) ++ "=" ++ encode (to_string v))%string]
  end.

Definition stringify (o : object) : string :=
  String.concat "&" (flat_map stringify_pair o).

(** [qs.stringify(x)] where [x] may be [undefined] or [null]. *)
Definition stringify_opt (o : option object) : string :=
  match o with
  | Some o => stringify o
  | None => EmptyString
  end.

End Js.

(* ===================================================================== *)
(** ** The client: [src/index.ts] *)
(* ===================================================================== *)

Module Kraken.
Import Bytes Js.
Local Open Scope string_scope.

(** *** Completions *)

Inductive JsError :=
| TypeError (msg : string)        (* thrown by the engine *)
| Reason (r : string)             (* [Promise.reject(r)] *)
| TransportError (e : string).    (* a rejection coming from axios *)

(** How a call ends. For an [async] function, [Normal] is a fulfilled
    promise and [Throw] a rejected one. *)
Inductive completion (A : Type) :=
| Normal (a : A)
| Throw (e : JsError).
Arguments Normal {A} a.
Arguments Throw {A} e.

(** *** Configuration *)

(** [defaultConfig], lines 14-18. *)
Definition defaultConfig : object :=
  [("rootUrl", Str "https://api.kraken.com");
   ("timeout", Num 15000);
   ("version", Num 0)].

(** The request handed to axios. *)
Record AgentConfig := {
  baseURL : value;
  headers : object;
  method  : string;
  timeout : value;
  url     : option string;
  data    : option string;
}.

(** [defaultAgentConfig], lines 23-30: the base address and the timeout are
    read from [defaultConfig] once, here. *)
Definition defaultAgentConfig : AgentConfig :=
  {| baseURL := get defaultConfig "rootUrl";
     headers :=
       [("User-Agent",
         Str "Kraken API Client (kraken-cryptoexchange-api node package)")];
     method  := "GET";
     timeout := get defaultConfig "timeout";
     url     := None;
     data    := None |}.

(** [{ ...defaultAgentConfig }], lines 37-39. *)
Definition publicAgentConfig : AgentConfig := defaultAgentConfig.

(** [{ ...defaultAgentConfig, method: 'POST' }], lines 46-49. *)
Definition privateAgentConfig : AgentConfig :=
  {| baseURL := baseURL defaultAgentConfig;
     headers := headers defaultAgentConfig;
     method  := "POST";
     timeout := timeout defaultAgentConfig;
     url     := url defaultAgentConfig;
     data    := data defaultAgentConfig |}.

(** *** [signMessage], lines 73-86 *)

(** [IPostBody]: string keys, with [nonce] among them. *)
Definition IPostBody := object.

(** None of the four library calls throws on the arguments their types
    allow, so the completion is always [Normal]. *)

Definition signMessage (path : string) (postBody : IPostBody)
           (privateKey : string) : completion string :=
  let message := stringify postBody in
  let decryptedKey := Base64.decode privateKey in
  let hashDigest :=
    latin1_decode
      (Sha2.sha256 (utf8_encode (plus_string (get postBody "nonce") message)))
  in
  Normal (Base64.encode
            (Hmac.hmac_sha512 decryptedKey
               (latin1_encode (path ++ hashDigest)))).

(** *** The world around the client *)

Record IApiAuth := { publicKey : string; privateKey : string }.

Record IKrakenResponse := { status : Z; body : string }.

(** What the client cannot decide: the readings of the wall clock, in the
    order they are taken (whole milliseconds; a time value is at most
    8.64e15 in magnitude, hence a safe integer), and what the transport
    answers to the [k]-th request. *)
Record Env := {
  Date_now : nat -> Z;
  axios_reply : nat -> AgentConfig -> completion IKrakenResponse;
}.

(** The raw agent's [auth] property, the number of clock readings taken
    and the requests handed to axios, oldest first. *)
Record State := {
  auth : option IApiAuth;
  clock_reads : nat;
  sent : list AgentConfig;
}.

Definition M (A : Type) : Type := State -> completion A * State.

Definition ret {A} (a : A) : M A := fun s => (Normal a, s).

Definition throw {A} (e : JsError) : M A := fun s => (Throw e, s).

Definition bind {A B} (c : M A) (k : A -> M B) : M B :=
  fun s =>
    match c s with
    | (Normal a, s') => k a s'
    | (Throw e, s') => (Throw e, s')
    end.

Notation "x <- c ;; k" := (bind c (fun x => k))
  (at level 61, c at next level, right associativity).

Definition lift {A} (c : completion A) : M A := fun s => (c, s).

Section Client.
Variable env : Env.

(** [Date.now()]: the next reading of the clock. *)
Definition now : M Z :=
  fun s =>
    (Normal (Date_now env (clock_reads s)),
     {| auth := auth s;
        clock_reads := S (clock_reads s);
        sent := sent s |}).

(** [await axios(agentConfig)]: the request goes out and the transport's
    answer, a response or a rejection, comes back. *)
Definition axios (agentConfig : AgentConfig) : M IKrakenResponse :=
  fun s =>
    (axios_reply env (List.length (sent s)) agentConfig,
     {| auth := auth s;
        clock_reads := clock_reads s;
        sent := (sent s ++ [agentConfig])%list |}).

(** [Date.now() * 1000], a product of two numbers: exact as long as it
    stays a safe integer, rounded to the nearest double further up. *)
Definition generateNonce : M Z :=
  t <- now ;;
  ret (Number_multiply t 1000).

(** *** The raw agent, [getRawAgent], lines 127-212 *)

(** What a method may hand back at run time, whatever type it declares: a
    primitive value or the credentials object. *)
Inductive returned :=
| Primitive (v : value)
| Credentials (a : IApiAuth).

(** ToBoolean, as [!x] and [if (x)] apply it: an object is truthy;
    [undefined], [null], [false], zero and the empty string are not. *)
Definition ToBoolean (r : returned) : bool :=
  match r with
  | Credentials _ => true
  | Primitive Undefined => false
  | Primitive Null => false
  | Primitive (Bool b) => b
  | Primitive (Num n) => negb (n =? 0)%Z
  | Primitive (Str s) => negb (String.eqb s "")
  end.

(** [this.auth] as a value: the credentials object, or [undefined]. *)
Definition this_auth_value (s : State) : returned :=
  match auth s with
  | Some a => Credentials a
  | None => Primitive Undefined
  end.

(** Line 164, [return this.auth]: declared [boolean], the method hands
    back the [auth] property itself. *)
Definition isUpgraded : M returned :=
  fun s => (Normal (this_auth_value s), s).

(** [this.auth = newAuth] *)
Definition upgrade (newAuth : IApiAuth) : M unit :=
  fun s =>
    (Normal tt,
     {| auth := Some newAuth;
        clock_reads := clock_reads s;
        sent := sent s |}).

(** [this.auth.publicKey], [this.auth.privateKey] *)
Definition this_auth (field : string) : M IApiAuth :=
  fun s =>
    match auth s with
    | Some a => (Normal a, s)
    | None =>
        (Throw (TypeError
                  ("Cannot read property '" ++ field ++ "' of undefined")),
         s)
    end.

(** Lines 142-157. [config] is read for its [version] only. *)
Definition getPublicEndpoint (endpoint : string)
           (queryParams : option object)
           (configOverride : option object) : M IKrakenResponse :=
  let config := spread_opt defaultConfig configOverride in
  let uri :=
    "/" ++ to_string (get config "version") ++ "/public/" ++ endpoint
        ++ "?" ++ stringify_opt queryParams in
  let agentConfig :=
    {| baseURL := baseURL publicAgentConfig;
       headers := headers publicAgentConfig;
       method  := method publicAgentConfig;
       timeout := timeout publicAgentConfig;
       url     := Some uri;
       data    := data publicAgentConfig |} in
  axios agentConfig.

(** Lines 174-199. *)
Definition postToPrivateEndpoint (endpoint : string) (data_ : IPostBody)
           (configOverride : option object) : M IKrakenResponse :=
  up <- isUpgraded ;;
  if negb (ToBoolean up)
  then throw (Reason "api keys are required to access private endpoints")
  else
    let config := spread_opt defaultConfig configOverride in
    let uri :=
      "/" ++ to_string (get config "version") ++ "/private/" ++ endpoint in
    a <- this_auth "publicKey" ;;
    a' <- this_auth "privateKey" ;;
    sig <- lift (signMessage uri data_ (privateKey a')) ;;
    let headers_ :=
      spread (headers privateAgentConfig)
             [("API-Key", Str (publicKey a)); ("API-Sign", Str sig)] in
    let agentConfig :=
      {| baseURL := baseURL privateAgentConfig;
         headers := headers_;
         method  := method privateAgentConfig;
         timeout := timeout privateAgentConfig;
         url     := Some uri;
         data    := Some (stringify data_) |} in
    axios agentConfig.

(** *** The client's endpoint methods, [getClient], lines 354-614 *)

(** [(({ a, b }) => ({ a, b }))(src)]: the named properties of [src],
    [undefined] for a missing one. *)
Definition shorthand (names : list string) (src : object) : object :=
  map (fun k => (k, get src k)) names.

(** [src[k]] where [src] may be [undefined]. *)
Definition member (src : option object) (k : string) : M value :=
  match src with
  | Some o => ret (get o k)
  | None =>
      throw (TypeError ("Cannot read property '" ++ k ++ "' of undefined"))
  end.

Definition getServerTime : M IKrakenResponse :=
  getPublicEndpoint "Time" None None.

Definition getTickerInformation (queryParams : object) : M IKrakenResponse :=
  let params := shorthand ["pair"] queryParams in
  getPublicEndpoint "Ticker" (Some params) None.

Definition getAccountBalance : M IKrakenResponse :=
  nonce <- generateNonce ;;
  let params := [("nonce", Num nonce)] in
  postToPrivateEndpoint "Balance" params None.

Definition getTradeBalance (queryParams : option object)
  : M IKrakenResponse :=
  nonce <- generateNonce ;;
  let params :=
    match queryParams with
    | Some q => ("nonce", Num nonce) :: shorthand ["aclass"; "asset"] q
    | None => [("nonce", Num nonce)]
    end in
  postToPrivateEndpoint "TradeBalance" params None.

(** Lines 510-523. [queryParams] is optional, and read without a guard
    for [fee-info]. *)
Definition getTradeVolume (queryParams : option object)
  : M IKrakenResponse :=
  nonce <- generateNonce ;;
  let params :=
    match queryParams with
    | Some q => ("nonce", Num nonce) :: shorthand ["pair"] q
    | None => [("nonce", Num nonce)]
    end in
  fee <- member queryParams "fee-info" ;;
  let params := set params "fee-info" fee in
  postToPrivateEndpoint "TradeVolume" params None.

(** Lines 525-544. *)
Definition addStandardOrder (queryParams : object) : M IKrakenResponse :=
  nonce <- generateNonce ;;
  let required :=
    ("nonce", Num nonce) :: shorthand ["pair"; "type"; "ordertype"] queryParams in
  let optional :=
    shorthand ["price"; "price2"; "volume"; "leverage"; "oflags";
               "starttm"; "expiretm"; "userref"; "validate"] queryParams in
  let optionalClose :=
    [("close[type]", get queryParams "close[type]");
     ("close[price]", get queryParams "close[price]");
     ("close[price2]", get queryParams "close[price2]")] in
  let params := spread (spread required optional) optionalClose in
  postToPrivateEndpoint "AddOrder" params None.

Definition getDepositMethods (queryParams : object) : M IKrakenResponse :=
  nonce <- generateNonce ;;
  let params := ("nonce", Num nonce) :: shorthand ["aclass"; "asset"] queryParams in
  postToPrivateEndpoint "DepositMethods" params None.

(** Lines 575-613: five methods with the body of [getDepositMethods]. *)
Definition getStatusOfRecentDeposits (queryParams : object)
  : M IKrakenResponse :=
  nonce <- generateNonce ;;
  let params := ("nonce", Num nonce) :: shorthand ["aclass"; "asset"] queryParams in
  postToPrivateEndpoint "DepositMethods" params None.

Definition getWithdrawalInformation (queryParams : object)
  : M IKrakenResponse :=
  nonce <- generateNonce ;;
  let params := ("nonce", Num nonce) :: shorthand ["aclass"; "asset"] queryParams in
  postToPrivateEndpoint "DepositMethods" params None.

Definition withdrawFunds (queryParams : object) : M IKrakenResponse :=
  nonce <- generateNonce ;;
  let params := ("nonce", Num nonce) :: shorthand ["aclass"; "asset"] queryParams in
  postToPrivateEndpoint "DepositMethods" params None.

Definition getStatusOfRecentWithdrawals (queryParams : object)
  : M IKrakenResponse :=
  nonce <- generateNonce ;;
  let params := ("nonce", Num nonce) :: shorthand ["aclass"; "asset"] queryParams in
  postToPrivateEndpoint "DepositMethods" params None.

Definition requestWithdrawalCancellation (queryParams : object)
  : M IKrakenResponse :=
  nonce <- generateNonce ;;
  let params := ("nonce", Num nonce) :: shorthand ["aclass"; "asset"] queryParams in
  postToPrivateEndpoint "DepositMethods" params None.

(** *** The other endpoint methods *)

(** Lines 366-373. Without parameters the query is [null]. *)
Definition getAssetInfo (queryParams : option object) : M IKrakenResponse :=
  let params :=
    match queryParams with
    | Some q => Some (shorthand ["info"; "aclass"; "asset"] q)
    | None => None
    end in
  getPublicEndpoint "Assets" params None.

(** Lines 375-382. *)
Definition getTradableAssetPairs (queryParams : option object)
  : M IKrakenResponse :=
  let params :=
    match queryParams with
    | Some q => Some (shorthand ["info"; "pair"] q)
    | None => None
    end in
  getPublicEndpoint "AssetPairs" params None.

(** Lines 391-396. *)
Definition getOhlcData (queryParams : object) : M IKrakenResponse :=
  let params := shorthand ["pair"; "interval"; "since"] queryParams in
  getPublicEndpoint "OHLC" (Some params) None.

(** Lines 398-403. *)
Definition getOrderBook (queryParams : object) : M IKrakenResponse :=
  let params := shorthand ["pair"; "count"] queryParams in
  getPublicEndpoint "Depth" (Some params) None.

(** Lines 405-410. *)
Definition getRecentTrades (queryParams : object) : M IKrakenResponse :=
  let params := shorthand ["pair"; "since"] queryParams in
  getPublicEndpoint "Trades" (Some params) None.

(** Lines 412-417. *)
Definition getRecentSpreadData (queryParams : object) : M IKrakenResponse :=
  let params := shorthand ["pair"; "since"] queryParams in
  getPublicEndpoint "Spread" (Some params) None.

(** Lines 436-444. *)
Definition getOpenOrders (queryParams : option object) : M IKrakenResponse :=
  nonce <- generateNonce ;;
  let params :=
    match queryParams with
    | Some q => ("nonce", Num nonce) :: shorthand ["trades"; "userref"] q
    | None => [("nonce", Num nonce)]
    end in
  postToPrivateEndpoint "OpenOrders" params None.

(** Lines 446-454. *)
Definition getClosedOrders (queryParams : option object)
  : M IKrakenResponse :=
  nonce <- generateNonce ;;
  let params :=
    match queryParams with
    | Some q =>
        ("nonce", Num nonce)
          :: shorthand ["trades"; "userref"; "start"; "end"; "ofs";
                        "closetime"] q
    | None => [("nonce", Num nonce)]
    end in
  postToPrivateEndpoint "ClosedOrders" params None.

(** Lines 456-464. The parameter is declared as required and tested all
    the same. *)
Definition queryOrdersInfo (queryParams : option object)
  : M IKrakenResponse :=
  nonce <- generateNonce ;;
  let params :=
    match queryParams with
    | Some q =>
        ("nonce", Num nonce) :: shorthand ["trades"; "userref"; "txid"] q
    | None => [("nonce", Num nonce)]
    end in
  postToPrivateEndpoint "QueryOrders" params None.

(** Lines 466-474. *)
Definition getTradesHistory (queryParams : option object)
  : M IKrakenResponse :=
  nonce <- generateNonce ;;
  let params :=
    match queryParams with
    | Some q =>
        ("nonce", Num nonce)
          :: shorthand ["type"; "trades"; "start"; "end"; "ofs"] q
    | None => [("nonce", Num nonce)]
    end in
  postToPrivateEndpoint "TradesHistory" params None.

(** Lines 476-482. *)
Definition queryTradesInfo (queryParams : object) : M IKrakenResponse :=
  nonce <- generateNonce ;;
  let params := ("nonce", Num nonce) :: shorthand ["txid"; "trades"] queryParams in
  postToPrivateEndpoint "QueryTrades" params None.

(** Lines 484-490. *)
Definition getOpenPositions (queryParams : object) : M IKrakenResponse :=
  nonce <- generateNonce ;;
  let params := ("nonce", Num nonce) :: shorthand ["txid"; "docalcs"] queryParams in
  postToPrivateEndpoint "OpenPositions" params None.

(** Lines 492-500. *)
Definition getLedgersInfo (queryParams : option object)
  : M IKrakenResponse :=
  nonce <- generateNonce ;;
  let params :=
    match queryParams with
    | Some q =>
        ("nonce", Num nonce)
          :: shorthand ["aclass"; "asset"; "type"; "start"; "end"; "ofs"] q
    | None => [("nonce", Num nonce)]
    end in
  postToPrivateEndpoint "Ledgers" params None.

(** Lines 502-508. *)
Definition queryLedgers (queryParams : object) : M IKrakenResponse :=
  nonce <- generateNonce ;;
  let params := ("nonce", Num nonce) :: shorthand ["id"] queryParams in
  postToPrivateEndpoint "QueryLedgers" params None.

(** Lines 546-552. *)
Definition cancelOpenOrder (queryParams : object) : M IKrakenResponse :=
  nonce <- generateNonce ;;
  let params := ("nonce", Num nonce) :: shorthand ["txid"] queryParams in
  postToPrivateEndpoint "CancelOrder" params None.

(** Lines 562-573. *)
Definition getDepositAddresses (queryParams : object) : M IKrakenResponse :=
  nonce <- generateNonce ;;
  let params :=
    ("nonce", Num nonce) :: shorthand ["aclass"; "asset"; "method"] queryParams in
  let params := set params "new" (get queryParams "new") in
  postToPrivateEndpoint "DepositAddresses" params None.

(** [n] calls in a row, results in call order. *)
Fixpoint repeatM {A} (n : nat) (c : M A) : M (list A) :=
  match n with
  | O => ret []
  | S k =>
      x <- c ;;
      xs <- repeatM k c ;;
      ret (x :: xs)
  end.

End Client.

(** [getClient(auth)]: a fresh client, nothing read, nothing sent. *)
Definition getClient (a : option IApiAuth) : State :=
  {| auth := a; clock_reads := 0; sent := [] |}.

End Kraken.

(* ===================================================================== *)
(** ** Published vectors for the hash functions *)
(* ===================================================================== *)

Module CryptoVectors.
Import Bytes.

Example sha256_empty :
  to_hex (Sha2.sha256 []) =
  "e3b0c44298fc1c149afbf4c8996fb92427ae41e4649b934ca495991b7852b855"%string.
Proof. vm_compute. reflexivity. Qed.

Example sha256_abc :
  to_hex (Sha2.sha256 (list_byte_of_string "abc")) =
  "ba7816bf8f01cfea414140de5dae2223b00361a396177a9cb410ff61f20015ad"%string.
Proof. vm_compute. reflexivity. Qed.

(** Two blocks after padding. *)
Example sha256_two_blocks :
  to_hex (Sha2.sha256
            (list_byte_of_string
               "abcdbcdecdefdefgefghfghighijhijkijkljklmklmnlmnomnopnopq")) =
  "248d6a61d20638b8e5c026930c3e6039a33ce45964ff2167f6ecedd419db06c1"%string.
Proof. vm_compute. reflexivity. Qed.

Example sha512_abc :
  to_hex (Sha2.sha512 (list_byte_of_string "abc")) =
  "ddaf35a193617abacc417349ae20413112e6fa4e89a97ea20a9eeee64b55d39a2192992a274fc1a836ba3c23a3feebbd454d4423643ce80e2a9ac94fa54ca49f"%string.
Proof. vm_compute. reflexivity. Qed.

Example sha512_two_blocks :
  to_hex (Sha2.sha512
            (list_byte_of_string
               "abcdefghbcdefghicdefghijdefghijkefghijklfghijklmghijklmnhijklmnoijklmnopjklmnopqklmnopqrlmnopqrsmnopqrstnopqrstu")) =
  "8e959b75dae313da8cf4f72814fc143f8f7779c6eb9f7fa17299aeadb6889018501d289e4900f7e4331b99dec4b5433ac7d329eeb6dd26545e96e55b874be909"%string.
Proof. vm_compute. reflexivity. Qed.

(** RFC 4231, test case 2. *)
Example hmac_sha512_rfc4231_2 :
  to_hex (Hmac.hmac_sha512 (list_byte_of_string "Jefe")
            (list_byte_of_string "what do ya want for nothing?")) =
  "164b7a7bfcf819e2e395fbe73b56e0a387bd64222e831fd610270cd7ea2505549758bf75c05a994a6d034f65f8f0e6fdcaeab1a34d4a6b4b636e070a38bce737"%string.
Proof. vm_compute. reflexivity. Qed.

(** A key longer than a block is hashed first. *)
Example hmac_sha512_long_key :
  to_hex (Hmac.hmac_sha512 (repeat x6b 131)
            (list_byte_of_string
               "Test Using Larger Than Block-Size Key - Hash Key First")) =
  "7c8e74d6159803e71a2ed5b35c729ab16d5f2d66dd859a349113fca9caf48a8cdc5373de4ecde6c9879975e8a8af4cf9a37c86466642a65752e18e2eb6686b04"%string.
Proof. vm_compute. reflexivity. Qed.

End CryptoVectors.

(* ===================================================================== *)
(** ** Strings and their bytes *)
(* ===================================================================== *)

Module StringFacts.
Import Bytes Js.

(** Every character is below 128. *)
Definition is_ascii (s : string) : bool :=
  forallb (fun c => char_code c <? 128) (list_ascii_of_string s).

Ltac each_char c :=
  destruct c as [[|] [|] [|] [|] [|] [|] [|] [|]]; vm_compute; try reflexivity;
  try discriminate.

Lemma list_ascii_app (s t : string) :
  list_ascii_of_string (s ++ t) =
  (list_ascii_of_string s ++ list_ascii_of_string t)%list.
Proof.
  induction s as [|c s IH]; simpl; [reflexivity | now rewrite IH].
Qed.

Lemma list_byte_app (s t : string) :
  list_byte_of_string (s ++ t) =
  (list_byte_of_string s ++ list_byte_of_string t)%list.
Proof.
  unfold list_byte_of_string. now rewrite list_ascii_app, map_app.
Qed.

Lemma is_ascii_app (s t : string) :
  is_ascii (s ++ t) = is_ascii s && is_ascii t.
Proof.
  unfold is_ascii. now rewrite list_ascii_app, forallb_app.
Qed.

Lemma is_ascii_concat (sep : string) (l : list string) :
  is_ascii sep = true ->
  Forall (fun s => is_ascii s = true) l ->
  is_ascii (String.concat sep l) = true.
Proof.
  intros Hsep Hl. induction Hl as [|x l Hx Hl IH]; [reflexivity|].
  destruct l as [|y l]; simpl; [exact Hx|].
  rewrite !is_ascii_app, Hx, Hsep. simpl. exact IH.
Qed.

Lemma is_ascii_uint (d : Decimal.uint) :
  is_ascii (NilEmpty.string_of_uint d) = true.
Proof.
  induction d; simpl; try reflexivity; exact IHd.
Qed.

Lemma is_ascii_decimal (n : Z) : is_ascii (decimal n) = true.
Proof.
  unfold decimal. destruct (Z.to_int n) as [d|d]; simpl;
    unfold NilZero.string_of_uint.
  - destruct d; try reflexivity; apply (is_ascii_uint (_ d)).
  - change (is_ascii (String "-" ?s)) with (is_ascii s).
    destruct d; try reflexivity; apply (is_ascii_uint (_ d)).
Qed.

(** The decimal rendering reads back as the number. *)
Lemma decimal_reads_back (n : Z) :
  option_map Z.of_int (NilZero.int_of_string (decimal n)) = Some n.
Proof.
  unfold decimal. rewrite NilZero.isi.
  - cbn. now rewrite DecimalZ.of_to.
  - destruct n; cbn; try discriminate.
    intros H. injection H. apply DecimalPos.Unsigned.to_uint_nonnil.
  - destruct n; cbn; try discriminate.
    intros H. injection H. apply DecimalPos.Unsigned.to_uint_nonnil.
Qed.

Lemma is_ascii_encode_char (c : ascii) : is_ascii (encode_char c) = true.
Proof. each_char c. Qed.

Lemma is_ascii_encode (s : string) : is_ascii (encode s) = true.
Proof.
  induction s as [|c s IH]; [reflexivity|].
  simpl. change (String.append ?a ?b) with (a ++ b)%string.
  now rewrite is_ascii_app, is_ascii_encode_char, IH.
Qed.

Lemma is_ascii_stringify (o : object) : is_ascii (stringify o) = true.
Proof.
  unfold stringify. apply is_ascii_concat; [reflexivity|].
  apply Forall_forall. intros s Hs.
  apply in_flat_map in Hs. destruct Hs as [[k v] [_ Hs]].
  unfold stringify_pair in Hs. cbn [fst snd] in Hs.
  destruct v; cbn [In] in Hs;
    repeat match goal with
           | H : _ \/ _ |- _ => destruct H
           | H : False |- _ => destruct H
           end; subst;
    rewrite ?is_ascii_app, ?is_ascii_encode; reflexivity.
Qed.

Lemma utf8_byte_ascii (c : ascii) :
  (char_code c <? 128) = true ->
  map byte_of_Z (utf8_char c) = [byte_of_ascii c].
Proof. each_char c. Qed.

(** On ASCII text UTF-8 writes one byte per character, the character's
    code. *)
Lemma utf8_encode_ascii (s : string) :
  is_ascii s = true -> utf8_encode s = list_byte_of_string s.
Proof.
  unfold utf8_encode, list_byte_of_string, is_ascii.
  induction (list_ascii_of_string s) as [|c l IH]; [reflexivity|].
  simpl. intros H. apply andb_true_iff in H. destruct H as [Hc Hl].
  rewrite map_app, (utf8_byte_ascii c Hc), (IH Hl). reflexivity.
Qed.

(** A digest taken as a Latin-1 string and written back as Latin-1 is the
    digest. *)
Lemma latin1_round_trip (b : Buffer) : latin1_encode (latin1_decode b) = b.
Proof. apply list_byte_of_string_of_list_byte. Qed.

Lemma latin1_encode_app (s t : string) :
  latin1_encode (s ++ t) = (latin1_encode s ++ latin1_encode t)%list.
Proof. apply list_byte_app. Qed.

End StringFacts.

(* ===================================================================== *)
(** ** Base64: what the decoder makes of a key *)
(* ===================================================================== *)

Module Base64Facts.
Import Bytes Base64.

Definition is_byte (z : Z) : Prop := 0 <= z < 256.

(** Induction three bytes at a time, the way the encoder reads. *)
Lemma triples_ind (P : list Z -> Prop) :
  P [] ->
  (forall a, P [a]) ->
  (forall a b, P [a; b]) ->
  (forall a b c r, P r -> P (a :: b :: c :: r)) ->
  forall l, P l.
Proof.
  intros H0 H1 H2 H3.
  assert (H : forall l, P l /\ (forall a, P (a :: l))
                        /\ (forall a b, P (a :: b :: l))).
  { induction l as [|x l [IH0 [IH1 IH2]]].
    - repeat split; auto.
    - repeat split; auto. }
  intros l. apply H.
Qed.

(** The four sextets of three bytes, and what is left of one or two. *)
Fixpoint sextets_of (bs : list Z) : list Z :=
  match bs with
  | a :: b :: c :: r =>
      a / 4 :: (a mod 4) * 16 + b / 16 :: (b mod 16) * 4 + c / 64
        :: c mod 64 :: sextets_of r
  | [a; b] => [a / 4; (a mod 4) * 16 + b / 16; (b mod 16) * 4]
  | [a] => [a / 4; (a mod 4) * 16]
  | [] => []
  end.

Definition sextet_ok (v : Z) : bool :=
  negb (sextet_char v =? "=")%char &&
  match unbase64 (sextet_char v) with
  | Some u => u =? v
  | None => false
  end.

Lemma sextet_table :
  forallb sextet_ok (map Z.of_nat (seq 0 64)) = true.
Proof. vm_compute. reflexivity. Qed.

Lemma sextet_char_legal (v : Z) :
  0 <= v < 64 ->
  (sextet_char v =? "=")%char = false /\ unbase64 (sextet_char v) = Some v.
Proof.
  intros Hv.
  assert (Hin : In v (map Z.of_nat (seq 0 64))).
  { apply in_map_iff. exists (Z.to_nat v). split; [lia|].
    apply in_seq. lia. }
  pose proof (proj1 (forallb_forall _ _) sextet_table v Hin) as Hok.
  unfold sextet_ok in Hok. apply andb_true_iff in Hok.
  destruct Hok as [Hne Hun]. split.
  - now apply negb_true_iff in Hne.
  - destruct (unbase64 (sextet_char v)) as [u|]; [|discriminate].
    apply Z.eqb_eq in Hun. now subst.
Qed.

Lemma sextets_cons (v : Z) (s : string) :
  0 <= v < 64 -> sextets (String (sextet_char v) s) = v :: sextets s.
Proof.
  intros Hv. destruct (sextet_char_legal v Hv) as [Hne Hun].
  cbn [sextets]. now rewrite Hne, Hun.
Qed.

Ltac euclid := Z.to_euclidean_division_equations; lia.

Lemma sextets_encode (bs : list Z) :
  Forall is_byte bs -> sextets (encode_Z bs) = sextets_of bs.
Proof.
  unfold is_byte.
  induction bs as [|a|a b|a b c r IH] using triples_ind; intros Hb.
  - reflexivity.
  - inversion_clear Hb. cbn [encode_Z sextets_of].
    rewrite !sextets_cons by euclid. reflexivity.
  - inversion_clear Hb as [|? ? ? Hb']. inversion_clear Hb'.
    cbn [encode_Z sextets_of].
    rewrite !sextets_cons by euclid. reflexivity.
  - inversion_clear Hb as [|? ? ? Hb1]. inversion_clear Hb1 as [|? ? ? Hb2].
    inversion_clear Hb2 as [|? ? ? Hr].
    cbn [encode_Z sextets_of].
    rewrite !sextets_cons by euclid. now rewrite (IH Hr).
Qed.

Lemma bytes_of_sextets_of (bs : list Z) :
  Forall is_byte bs -> bytes_of_sextets (sextets_of bs) = bs.
Proof.
  unfold is_byte.
  induction bs as [|a|a b|a b c r IH] using triples_ind; intros Hb.
  - reflexivity.
  - inversion_clear Hb. cbn [sextets_of bytes_of_sextets].
    f_equal. euclid.
  - inversion_clear Hb as [|? ? ? Hb']. inversion_clear Hb'.
    cbn [sextets_of bytes_of_sextets].
    f_equal; [euclid|]. f_equal. euclid.
  - inversion_clear Hb as [|? ? ? Hb1]. inversion_clear Hb1 as [|? ? ? Hb2].
    inversion_clear Hb2 as [|? ? ? Hr].
    cbn [sextets_of bytes_of_sextets].
    rewrite (IH Hr). f_equal; [euclid|]. f_equal; [euclid|].
    f_equal. euclid.
Qed.

Lemma byte_to_Z_range (x : byte) : is_byte (byte_to_Z x).
Proof. unfold is_byte. destruct x; vm_compute; split; congruence. Qed.

Lemma byte_of_to_Z (x : byte) : byte_of_Z (byte_to_Z x) = x.
Proof. destruct x; reflexivity. Qed.

(** Decoding what the encoder wrote gives the bytes back. *)
Lemma decode_encode (b : Buffer) : decode (encode b) = b.
Proof.
  unfold decode, encode.
  assert (Hb : Forall is_byte (map byte_to_Z b)).
  { apply Forall_forall. intros z Hz. apply in_map_iff in Hz.
    destruct Hz as [x [<- _]]. apply byte_to_Z_range. }
  rewrite (sextets_encode _ Hb), (bytes_of_sextets_of _ Hb), map_map.
  rewrite <- (map_id b) at 2. apply map_ext. apply byte_of_to_Z.
Qed.

End Base64Facts.

(* ===================================================================== *)
(** ** The signer *)
(* ===================================================================== *)

Module SignerProps.
Import Bytes Js Kraken StringFacts.
Local Open Scope string_scope.

(** The signature as the exchange's protocol words it, on bytes: the
    HMAC-SHA512, under [secret], of the path followed by the raw SHA-256
    digest of the decimal nonce followed by the query string; in
    base64. *)
Definition signature_bytes (path : string) (nonce : Z) (query : string)
           (secret : Buffer) : string :=
  let hashDigest :=
    Sha2.sha256
      (list_byte_of_string (decimal nonce) ++ list_byte_of_string query)%list
  in
  Base64.encode
    (Hmac.hmac_sha512 secret (list_byte_of_string path ++ hashDigest)%list).

(** The signer's result when the key bytes are already at hand. *)
Definition sign_with (path : string) (postBody : IPostBody)
           (secret : Buffer) : string :=
  Base64.encode
    (Hmac.hmac_sha512 secret
       (latin1_encode
          (path ++ latin1_decode
             (Sha2.sha256
                (utf8_encode
                   (plus_string (get postBody "nonce")
                                (stringify postBody))))))).

Lemma signMessage_unfold path postBody key :
  signMessage path postBody key =
  Normal (sign_with path postBody (Base64.decode key)).
Proof. reflexivity. Qed.

Lemma Number_toString_decimal (n : Z) :
  safe_integer n -> Number_toString n = decimal n.
Proof.
  unfold safe_integer. intros H. unfold Number_toString.
  destruct (Z.ltb_spec (Z.abs n) (2 ^ 53)); [reflexivity | lia].
Qed.

Lemma sign_with_bytes path postBody secret n :
  get postBody "nonce" = Num n ->
  safe_integer n ->
  sign_with path postBody secret =
  signature_bytes path n (stringify postBody) secret.
Proof.
  intros Hn Hr. unfold sign_with, signature_bytes, plus_string.
  rewrite Hn. cbn [to_string]. rewrite (Number_toString_decimal n Hr).
  rewrite latin1_encode_app, latin1_round_trip.
  rewrite utf8_encode_ascii
    by (rewrite is_ascii_app, is_ascii_decimal, is_ascii_stringify;
        reflexivity).
  now rewrite list_byte_app.
Qed.

(** C1. For every path, every body whose [nonce] is an integer number and
    every key, [signMessage] returns the base64 of HMAC-SHA512, keyed with
    the base64-decoded private key, over the bytes of the path followed by
    the raw SHA-256 digest of the decimal nonce followed by the URL-encoded
    query string of the body. *)
Theorem signMessage_spec (path : string) (postBody : IPostBody)
        (privateKey : string) (n : Z) :
  get postBody "nonce" = Num n ->
  safe_integer n ->
  signMessage path postBody privateKey =
  Normal (signature_bytes path n (stringify postBody)
                          (Base64.decode privateKey)).
Proof.
  intros Hn Hr. rewrite signMessage_unfold.
  now rewrite (sign_with_bytes path postBody _ n Hn Hr).
Qed.

Lemma signMessage_spec_witness :
  signMessage "/0/private/Balance" [("nonce", Num 1616492376594000)]
              "cHJpdmF0ZWtleQ==" =
  Normal (signature_bytes "/0/private/Balance" 1616492376594000
                          (stringify [("nonce", Num 1616492376594000)])
                          (Base64.decode "cHJpdmF0ZWtleQ==")).
Proof.
  apply (signMessage_spec "/0/private/Balance"
           [("nonce", Num 1616492376594000)] "cHJpdmF0ZWtleQ=="
           1616492376594000).
  - reflexivity.
  - reflexivity.
Defined.

(** The worked example, pinned. *)
Example signMessage_reference_vector :
  signMessage "/0/private/Balance" [("nonce", Num 1616492376594000)]
              "cHJpdmF0ZWtleQ==" =
  Normal "jFBVPOWAdg1puMzZH4c+TP7A66GqolLSYmNCKhBbkYxX4it+ZxyDDVUn+nJafWCsnqECnqYHYVnjr4O4IdcW4w==".
Proof. vm_compute. reflexivity. Qed.

(** From 10^21 on a number no longer prints in decimal. *)
Example Number_toString_large : Number_toString (10 ^ 21) = "1e+21".
Proof. vm_compute. reflexivity. Qed.

(** Beyond the safe integers a number prints with the fewest digits that
    read back, not with its exact digits. *)
Example Number_toString_beyond_safe :
  Number_toString (2 ^ 60) = "1152921504606847000" /\
  Number_toString (2 ^ 53) = "9007199254740992" /\
  Number_toString 4611686018427413504 = "4611686018427414000" /\
  Number_toString 999999999999999868928 = "999999999999999900000" /\
  Number_toString (- (2 ^ 60)) = "-1152921504606847000" /\
  Number_toString 1500000000000000000000 = "1.5e+21" /\
  Number_toString 9007199254740991 = "9007199254740991".
Proof. vm_compute. repeat split; reflexivity. Qed.

(** Determinism and the absence of any failure are built into the type:
    the signer is a function, and its completion is always normal. *)
Lemma signMessage_total path postBody key :
  exists sig, signMessage path postBody key = Normal sig.
Proof. eexists. apply signMessage_unfold. Qed.

(** C5, as the spec words it, fails: a key that is not base64 is signed
    with, not rejected. *)
Lemma signMessage_accepts_malformed_key :
  Base64.well_formed "not base64!" = false /\
  signMessage "/0/private/Balance" [("nonce", Num 1616492376594000)]
              "not base64!" =
  Normal "B/4sdomiecO5/C5o+wvEsZoDe5YIGzHZyHw84IpFz/prl6dhbokvETOkpWaVkiSLwMEslg5O/c4u4vnAoY9/iA==" /\
  Base64.decode "not base64!" = Base64.decode "notbase6".
Proof.
  split; [reflexivity|]. split; vm_compute; reflexivity.
Qed.

(** C5, amended. Signing never fails on account of the key. The decoder
    is lenient (a character outside the alphabet is skipped, the first
    [=] ends the decoding), so every key, well formed or not, yields a
    signature: the one computed under the bytes the decoder extracts.
    For a key that is the base64 of some secret, those bytes are the
    secret. *)
Theorem signMessage_never_rejects_key (path : string) (postBody : IPostBody) :
  (forall key, signMessage path postBody key =
               Normal (sign_with path postBody (Base64.decode key))) /\
  (forall key e, signMessage path postBody key <> Throw e) /\
  (forall secret, signMessage path postBody (Base64.encode secret) =
                  Normal (sign_with path postBody secret)).
Proof.
  split; [|split].
  - intros key. apply signMessage_unfold.
  - intros key e. rewrite signMessage_unfold. discriminate.
  - intros secret. rewrite signMessage_unfold.
    now rewrite Base64Facts.decode_encode.
Qed.

End SignerProps.

(* ===================================================================== *)
(** ** Objects *)
(* ===================================================================== *)

Module ObjectFacts.
Import Js.


Lemma get_absent (o : object) (k : string) :
  has o k = false -> get o k = Undefined.
Proof.
  induction o as [|[k' v] r IH]; simpl; [reflexivity|].
  destruct (String.eqb k' k); simpl; [discriminate | exact IH].
Qed.

Lemma get_set (o : object) (k k' : string) (v : value) :
  get (set o k v) k' = if String.eqb k k' then v else get o k'.
Proof.
  induction o as [|[k0 v0] r IH]; simpl.
  - reflexivity.
  - destruct (String.eqb_spec k0 k) as [->|Hne]; simpl.
    + destruct (String.eqb k k'); reflexivity.
    + rewrite IH. destruct (String.eqb_spec k0 k') as [->|Hne'].
      * destruct (String.eqb_spec k k'); [congruence | reflexivity].
      * reflexivity.
Qed.

Lemma get_set_other (o : object) (k k' : string) (v : value) :
  String.eqb k k' = false -> get (set o k v) k' = get o k'.
Proof. intros H. now rewrite get_set, H. Qed.


End ObjectFacts.

(* ===================================================================== *)
(** ** The request agent *)
(* ===================================================================== *)

Module AgentProps.
Import Bytes Js Kraken ObjectFacts SignerProps.
Local Open Scope string_scope.

(** The state after one more reading of the clock. *)
Definition tick (n : nat) (s : State) : State :=
  {| auth := auth s; clock_reads := (clock_reads s + n)%nat; sent := sent s |}.

(** The state after [req] went out. *)
Definition dispatched (req : AgentConfig) (s : State) : State :=
  {| auth := auth s; clock_reads := clock_reads s;
     sent := (sent s ++ [req])%list |}.

(** The rejection of a private call on a client without keys. *)
Definition NotAuthenticated : JsError :=
  Reason "api keys are required to access private endpoints".

(** The merged configuration of one call. *)
Definition merged (configOverride : option object) : object :=
  spread_opt defaultConfig configOverride.

Definition private_path (endpoint : string) (configOverride : option object)
  : string :=
  "/" ++ to_string (get (merged configOverride) "version")
      ++ "/private/" ++ endpoint.

Definition public_uri (endpoint : string) (queryParams : option object)
           (configOverride : option object) : string :=
  "/" ++ to_string (get (merged configOverride) "version")
      ++ "/public/" ++ endpoint ++ "?" ++ stringify_opt queryParams.

(** The request a private call hands to axios. *)
Definition private_request (a : IApiAuth) (endpoint : string)
           (data_ : IPostBody) (configOverride : option object)
  : AgentConfig :=
  {| baseURL := Str "https://api.kraken.com";
     headers :=
       [("User-Agent",
         Str "Kraken API Client (kraken-cryptoexchange-api node package)");
        ("API-Key", Str (publicKey a));
        ("API-Sign",
         Str (sign_with (private_path endpoint configOverride) data_
                        (Base64.decode (privateKey a))))];
     method := "POST";
     timeout := Num 15000;
     url := Some (private_path endpoint configOverride);
     data := Some (stringify data_) |}.

(** The request a public call hands to axios. *)
Definition public_request (endpoint : string) (queryParams : option object)
           (configOverride : option object) : AgentConfig :=
  {| baseURL := Str "https://api.kraken.com";
     headers :=
       [("User-Agent",
         Str "Kraken API Client (kraken-cryptoexchange-api node package)")];
     method := "GET";
     timeout := Num 15000;
     url := Some (public_uri endpoint queryParams configOverride);
     data := None |}.

Lemma generateNonce_run env s :
  generateNonce env s =
  (Normal (Number_multiply (Date_now env (clock_reads s)) 1000), tick 1 s).
Proof.
  unfold generateNonce, bind, now, ret, tick. cbn.
  now rewrite Nat.add_1_r.
Qed.

Lemma axios_run env req s :
  axios env req s =
  (axios_reply env (List.length (sent s)) req, dispatched req s).
Proof. reflexivity. Qed.

Lemma getPublicEndpoint_run env endpoint q ov s :
  getPublicEndpoint env endpoint q ov s =
  axios env (public_request endpoint q ov) s.
Proof. reflexivity. Qed.

Lemma postToPrivateEndpoint_authenticated env endpoint data_ ov s a :
  auth s = Some a ->
  postToPrivateEndpoint env endpoint data_ ov s =
  axios env (private_request a endpoint data_ ov) s.
Proof.
  intros Ha.
  unfold postToPrivateEndpoint, bind, isUpgraded, this_auth_value,
    this_auth, lift.
  repeat (rewrite Ha; cbn beta iota delta [negb ToBoolean]).
  rewrite signMessage_unfold. reflexivity.
Qed.

Lemma postToPrivateEndpoint_unauthenticated env endpoint data_ ov s :
  auth s = None ->
  postToPrivateEndpoint env endpoint data_ ov s = (Throw NotAuthenticated, s).
Proof.
  intros Ha. unfold postToPrivateEndpoint, bind, isUpgraded, this_auth_value.
  rewrite Ha. reflexivity.
Qed.

(** *** Concrete surroundings for the examples *)

Definition demo_auth : IApiAuth :=
  {| publicKey := "pub"; privateKey := "cHJpdmF0ZWtleQ==" |}.

Definition ok_reply : completion IKrakenResponse :=
  Normal {| status := 200; body := "{}" |}.

(** A machine fast enough to read the clock twice per millisecond. *)
Definition demo_env : Env :=
  {| Date_now := fun k => 1616492376594 + Z.of_nat (k / 2);
     axios_reply := fun _ _ => ok_reply |}.

(** *** The nonce generator *)

Lemma tick_0 s : tick 0 s = s.
Proof. destruct s. unfold tick. cbn. now rewrite Nat.add_0_r. Qed.

Lemma tick_tick n m s : tick n (tick m s) = tick (m + n) s.
Proof. unfold tick. cbn. now rewrite Nat.add_assoc. Qed.

(** The [i]-th nonce of a run that starts in [s]. *)
Definition nonce_at (env : Env) (s : State) (i : nat) : Z :=
  Number_multiply (Date_now env (clock_reads s + i)) 1000.

(** On a safe integer the product is the exact one. *)
Lemma Number_multiply_safe (x y : Z) :
  safe_integer (x * y) -> Number_multiply x y = x * y.
Proof.
  unfold Number_multiply, nearest_double, safe_integer. intros H.
  destruct (Z.ltb_spec (Z.abs (x * y)) (2 ^ 53)); [reflexivity | lia].
Qed.

Lemma repeatM_generateNonce env k : forall s,
  repeatM k (generateNonce env) s =
  (Normal (map (nonce_at env s) (seq 0 k)), tick k s).
Proof.
  induction k as [|k IH]; intros s.
  - cbn. now rewrite tick_0.
  - cbn [repeatM]. unfold bind at 1. rewrite generateNonce_run.
    unfold bind at 1. rewrite IH. unfold ret.
    rewrite tick_tick. cbn [seq map Nat.add]. f_equal. f_equal. f_equal.
    + unfold nonce_at. now rewrite Nat.add_0_r.
    + rewrite <- seq_shift, map_map. apply map_ext. intros i.
      unfold nonce_at, tick. cbn. f_equal. f_equal. lia.
Qed.

Lemma nth_nonce env s k i :
  (i < k)%nat -> nth i (map (nonce_at env s) (seq 0 k)) 0 = nonce_at env s i.
Proof.
  intros Hi.
  rewrite (nth_indep _ 0 (nonce_at env s 0))
    by (now rewrite length_map, length_seq).
  rewrite map_nth, seq_nth by exact Hi. reflexivity.
Qed.

(** C2, as the spec words it, fails: two calls within one millisecond
    return the same nonce. *)
Lemma generateNonce_same_tick :
  repeatM 2 (generateNonce demo_env) (getClient None) =
  (Normal [1616492376594000; 1616492376594000], tick 2 (getClient None)) /\
  ~ (1616492376594000 < 1616492376594000).
Proof. split; [reflexivity | lia]. Qed.

(** C2, amended. While the clock does not go backwards and
    [Date.now() * 1000] stays a safe integer, each call to [generateNonce]
    returns [Date.now() * 1000]; successive calls return values that never
    decrease; a later call returns a strictly greater nonce exactly when
    [Date.now()] has advanced between the two calls, and the same nonce
    when both calls fall into one clock tick. *)
Theorem generateNonce_follows_clock (env : Env) (s : State) (k : nat) :
  (forall i j, (i <= j)%nat -> Date_now env i <= Date_now env j) ->
  (forall i, (i < k)%nat ->
             safe_integer (Date_now env (clock_reads s + i) * 1000)) ->
  exists l s',
    repeatM k (generateNonce env) s = (Normal l, s') /\
    List.length l = k /\
    (forall i, (i < k)%nat ->
               nth i l 0 = Date_now env (clock_reads s + i) * 1000) /\
    forall i j, (i < j)%nat -> (j < k)%nat ->
      nth i l 0 <= nth j l 0 /\
      (nth i l 0 < nth j l 0 <->
       Date_now env (clock_reads s + i) < Date_now env (clock_reads s + j)) /\
      (Date_now env (clock_reads s + i) = Date_now env (clock_reads s + j) ->
       nth i l 0 = nth j l 0).
Proof.
  intros Hclock Hsafe.
  exists (map (nonce_at env s) (seq 0 k)), (tick k s).
  split; [apply repeatM_generateNonce|].
  split; [now rewrite length_map, length_seq|].
  assert (Hnth : forall i, (i < k)%nat ->
                 nth i (map (nonce_at env s) (seq 0 k)) 0 =
                 Date_now env (clock_reads s + i) * 1000).
  { intros i Hi. rewrite nth_nonce by exact Hi. unfold nonce_at.
    apply Number_multiply_safe, Hsafe, Hi. }
  split; [exact Hnth|].
  intros i j Hij Hjk.
  rewrite !Hnth by lia.
  assert (Hle : Date_now env (clock_reads s + i)
                <= Date_now env (clock_reads s + j))
    by (apply Hclock; lia).
  repeat split; intros; lia.
Qed.

Lemma generateNonce_follows_clock_witness :
  exists l s',
    repeatM 3 (generateNonce demo_env) (getClient None) = (Normal l, s') /\
    List.length l = 3%nat /\
    (forall i, (i < 3)%nat ->
               nth i l 0 =
               Date_now demo_env (clock_reads (getClient None) + i) * 1000) /\
    forall i j, (i < j)%nat -> (j < 3)%nat ->
      nth i l 0 <= nth j l 0 /\
      (nth i l 0 < nth j l 0 <->
       Date_now demo_env (clock_reads (getClient None) + i)
       < Date_now demo_env (clock_reads (getClient None) + j)) /\
      (Date_now demo_env (clock_reads (getClient None) + i)
       = Date_now demo_env (clock_reads (getClient None) + j) ->
       nth i l 0 = nth j l 0).
Proof.
  apply (generateNonce_follows_clock demo_env (getClient None) 3).
  - intros i j Hij. cbn [Date_now demo_env].
    pose proof (Nat.Div0.div_le_mono i j 2 Hij). lia.
  - intros i Hi.
    destruct i as [|[|[|i]]]; [reflexivity | reflexivity | reflexivity | lia].
Defined.

(** Past the safe integers the product is rounded, and from 2^62 on two
    clock readings one millisecond apart can give one and the same nonce
    (the first two lines). The right-hand sides are the products an
    IEEE 754 double multiplication returns. *)
Example generateNonce_rounds_far_future :
  Number_multiply 4611686018427413 1000 = 4611686018427413504 /\
  Number_multiply 4611686018427414 1000 = 4611686018427413504 /\
  Number_multiply 8640000000000000 1000 = 8640000000000000000 /\
  Number_multiply 9007199254740991 1000 = 9007199254740990976 /\
  Number_multiply 4503599627370497 1000 = 4503599627370497024 /\
  Number_multiply 6755399441055745 1000 = 6755399441055745024 /\
  Number_multiply (-4611686018427413) 1000 = -4611686018427413504 /\
  Number_multiply 1616492376594 1000 = 1616492376594000 /\
  Number_multiply 4682150655692087 1000 = 4682150655692087296 /\
  Number_multiply 1560823975879760 1000 = 1560823975879759872 /\
  Number_multiply 8523281305644851 1000 = 8523281305644851200 /\
  Number_multiply 1973750227505195 1000 = 1973750227505195008 /\
  Number_multiply 6375189031799288 1000 = 6375189031799287808 /\
  Number_multiply 3059728291155701 1000 = 3059728291155701248 /\
  Number_multiply 1900042153185496 1000 = 1900042153185496064 /\
  Number_multiply 4892459238909786 1000 = 4892459238909786112 /\
  Number_multiply 341329940974479 1000 = 341329940974478976 /\
  Number_multiply 690790044596185 1000 = 690790044596184960 /\
  Number_multiply 136921085725222 1000 = 136921085725222000 /\
  Number_multiply 707015297766575 1000 = 707015297766574976.
Proof. vm_compute. repeat split; reflexivity. Qed.

(** *** The authentication gate *)

(** [!c]: the completion is normal and its value is not truthy. *)
Definition is_falsy (c : completion returned) : bool :=
  match c with
  | Normal r => negb (ToBoolean r)
  | Throw _ => false
  end.

(** C3. On an agent without credentials, where [isUpgraded()] hands back
    [undefined], every call to
    [postToPrivateEndpoint] is rejected, with the reason [api keys are
    required to access private endpoints], before anything is handed to
    the transport: the state, list of sent requests included, is
    unchanged. *)
Theorem private_requires_credentials (env : Env) (s : State)
        (endpoint : string) (data_ : IPostBody)
        (configOverride : option object) :
  is_falsy (fst (isUpgraded s)) = true ->
  postToPrivateEndpoint env endpoint data_ configOverride s =
  (Throw NotAuthenticated, s) /\
  sent (snd (postToPrivateEndpoint env endpoint data_ configOverride s)) =
  sent s.
Proof.
  intros Hup.
  assert (Ha : auth s = None).
  { unfold isUpgraded, this_auth_value in Hup. cbn in Hup.
    destruct (auth s); [discriminate | reflexivity]. }
  rewrite (postToPrivateEndpoint_unauthenticated env endpoint data_ _ s Ha).
  split; reflexivity.
Qed.

Lemma private_requires_credentials_witness :
  postToPrivateEndpoint demo_env "Balance" [("nonce", Num 1616492376594000)]
                        None (getClient None) =
  (Throw NotAuthenticated, getClient None) /\
  sent (snd (postToPrivateEndpoint demo_env "Balance"
               [("nonce", Num 1616492376594000)] None (getClient None))) =
  sent (getClient None).
Proof.
  apply (private_requires_credentials demo_env (getClient None) "Balance"
           [("nonce", Num 1616492376594000)] None).
  reflexivity.
Defined.

(** The gate also holds behind the client's methods: the nonce is drawn,
    nothing is sent. *)
Lemma getAccountBalance_unauthenticated env s :
  auth s = None ->
  getAccountBalance env s = (Throw NotAuthenticated, tick 1 s).
Proof.
  intros Ha. unfold getAccountBalance, bind. rewrite generateNonce_run.
  now apply postToPrivateEndpoint_unauthenticated.
Qed.

(** *** Where the nonce comes from *)

(** C4, as the spec words it, fails: the raw agent takes the nonce from
    the caller's body. Here the clock would give 1616492376594000; the
    body says 42, and 42 goes out, without the clock being read. *)
Lemma postToPrivateEndpoint_sends_caller_nonce :
  let s' := snd (postToPrivateEndpoint demo_env "Balance" [("nonce", Num 42)]
                   None (getClient (Some demo_auth))) in
  map data (sent s') = [Some "nonce=42"] /\
  clock_reads s' = 0%nat /\
  fst (generateNonce demo_env (getClient (Some demo_auth))) =
  Normal 1616492376594000.
Proof. vm_compute. repeat split; reflexivity. Qed.

(** C4, amended. [postToPrivateEndpoint] on an authenticated agent
    generates no nonce and does not read the clock: it signs and
    transmits the supplied body as it is, so the transmitted nonce is the
    caller's. The fresh nonce comes from the client's endpoint methods:
    [getAccountBalance] draws it from [generateNonce] and passes
    [{ nonce }] on. *)
Theorem nonce_comes_from_endpoint_method (env : Env) (s : State)
        (a : IApiAuth) (endpoint : string) (data_ : IPostBody)
        (configOverride : option object) :
  auth s = Some a ->
  (exists req,
      postToPrivateEndpoint env endpoint data_ configOverride s =
      (axios_reply env (List.length (sent s)) req, dispatched req s) /\
      data req = Some (stringify data_) /\
      get (headers req) "API-Sign" =
      Str (sign_with (private_path endpoint configOverride) data_
                     (Base64.decode (privateKey a)))) /\
  getAccountBalance env s =
  postToPrivateEndpoint env "Balance"
    [("nonce", Num (Number_multiply (Date_now env (clock_reads s)) 1000))]
    None (tick 1 s).
Proof.
  intros Ha. split.
  - exists (private_request a endpoint data_ configOverride).
    rewrite (postToPrivateEndpoint_authenticated env _ _ _ s a Ha).
    rewrite axios_run. repeat split; reflexivity.
  - unfold getAccountBalance, bind. now rewrite generateNonce_run.
Qed.

(** An endpoint method never takes the nonce from its caller: a [nonce]
    property in the parameters changes nothing. *)
Lemma endpoint_methods_ignore_caller_nonce env q v s :
  addStandardOrder env (set q "nonce" v) s = addStandardOrder env q s /\
  withdrawFunds env (set q "nonce" v) s = withdrawFunds env q s /\
  getTradeVolume env (Some (set q "nonce" v)) s =
  getTradeVolume env (Some q) s.
Proof.
  unfold addStandardOrder, withdrawFunds, getTradeVolume, member, shorthand.
  cbn [map]. rewrite !get_set_other by reflexivity.
  repeat split; reflexivity.
Qed.

Lemma nonce_comes_from_endpoint_method_witness :
  (exists req,
      postToPrivateEndpoint demo_env "Balance" [("nonce", Num 42)] None
                            (getClient (Some demo_auth)) =
      (axios_reply demo_env (List.length (sent (getClient (Some demo_auth))))
                   req,
       dispatched req (getClient (Some demo_auth))) /\
      data req = Some (stringify [("nonce", Num 42)]) /\
      get (headers req) "API-Sign" =
      Str (sign_with (private_path "Balance" None) [("nonce", Num 42)]
                     (Base64.decode (privateKey demo_auth)))) /\
  getAccountBalance demo_env (getClient (Some demo_auth)) =
  postToPrivateEndpoint demo_env "Balance"
    [("nonce",
      Num (Number_multiply
             (Date_now demo_env (clock_reads (getClient (Some demo_auth))))
             1000))]
    None (tick 1 (getClient (Some demo_auth))).
Proof.
  apply (nonce_comes_from_endpoint_method demo_env
           (getClient (Some demo_auth)) demo_auth "Balance"
           [("nonce", Num 42)] None).
  reflexivity.
Defined.

(** *** Per-call configuration *)


(** Whatever the override says, the request goes to the default base
    address with the default timeout. *)
Lemma request_ignores_rootUrl_and_timeout env endpoint q data_ a ov s :
  auth s = Some a ->
  (exists req,
      getPublicEndpoint env endpoint q ov s = axios env req s /\
      baseURL req = get defaultConfig "rootUrl" /\
      timeout req = get defaultConfig "timeout") /\
  (exists req,
      postToPrivateEndpoint env endpoint data_ ov s = axios env req s /\
      baseURL req = get defaultConfig "rootUrl" /\
      timeout req = get defaultConfig "timeout").
Proof.
  intros Ha. split.
  - exists (public_request endpoint q ov). now rewrite getPublicEndpoint_run.
  - exists (private_request a endpoint data_ ov).
    now rewrite (postToPrivateEndpoint_authenticated env _ _ _ s a Ha).
Qed.




(** The endpoint shaping example. *)
Example getTickerInformation_request :
  map url (sent (snd (getTickerInformation demo_env
                        [("pair", Str "XBTUSD")] (getClient None)))) =
  [Some "/0/public/Ticker?pair=XBTUSD"].
Proof. vm_compute. reflexivity. Qed.

Example version_override_request :
  map url (sent (snd (getPublicEndpoint demo_env "Time" None
                        (Some [("version", Num 1)]) (getClient None)))) =
  [Some "/1/public/Time?"].
Proof. vm_compute. reflexivity. Qed.

(** *** Credentials *)

(** What holds of [upgrade] in every agent state: it stores exactly [c]
    as the credentials, whatever was stored before, and touches nothing
    else; [isUpgraded()] then hands back that very object, which is
    truthy; after [upgrade(c1)] and [upgrade(c2)] the stored credentials
    are exactly [c2]. *)
Lemma upgrade_stores_exactly (s : State) (c c1 c2 : IApiAuth) :
  upgrade c s =
  (Normal tt,
   {| auth := Some c; clock_reads := clock_reads s; sent := sent s |}) /\
  fst (isUpgraded (snd (upgrade c s))) = Normal (Credentials c) /\
  ToBoolean (Credentials c) = true /\
  auth (snd (upgrade c2 (snd (upgrade c1 s)))) = Some c2 /\
  snd (upgrade c2 (snd (upgrade c1 s))) = snd (upgrade c2 s).
Proof. repeat split; reflexivity. Qed.

(** C7, at a client created without keys and upgraded with a pair of
    keys: the pair is stored as given, and [isUpgraded()], declared
    [boolean], hands back the credentials object itself, private key
    included, and not the boolean true. *)
Theorem isUpgraded_returns_credentials_object :
  let s := snd (upgrade demo_auth (getClient None)) in
  auth s = Some demo_auth /\
  fst (isUpgraded s) = Normal (Credentials demo_auth) /\
  fst (isUpgraded s) <> Normal (Primitive (Bool true)).
Proof.
  cbv zeta. split; [reflexivity|]. split; [reflexivity|].
  cbn. discriminate.
Qed.

(** Before any upgrade the method hands back [undefined], not false. *)
Example isUpgraded_without_keys :
  fst (isUpgraded (getClient None)) = Normal (Primitive Undefined).
Proof. reflexivity. Qed.

(** X13. After [upgrade(c)], whatever credentials were stored before, a
    private call carries [c]'s public key as API-Key and a signature
    computed under [c]'s private key as API-Sign. *)
Lemma upgrade_then_private env s c endpoint data_ :
  exists req,
    (_ <- upgrade c ;; postToPrivateEndpoint env endpoint data_ None) s =
    axios env req (snd (upgrade c s)) /\
    get (headers req) "API-Key" = Str (publicKey c) /\
    get (headers req) "API-Sign" =
    Str (sign_with (private_path endpoint None) data_
                   (Base64.decode (privateKey c))).
Proof.
  exists (private_request c endpoint data_ None).
  unfold bind at 1. cbn [upgrade snd].
  rewrite (postToPrivateEndpoint_authenticated env endpoint data_ None
             {| auth := Some c; clock_reads := clock_reads s;
                sent := sent s |} c eq_refl).
  repeat split; reflexivity.
Qed.

(** *** Endpoint methods *)

Definition demo_order : object :=
  [("pair", Str "XXBTZUSD"); ("type", Str "buy"); ("ordertype", Str "limit");
   ("price", Num 9000); ("volume", Num 1);
   ("close[ordertype]", Str "stop-loss-limit");
   ("close[price]", Num 8000); ("close[price2]", Num 7900)].

(** C8, at an order that carries the three close fields the parameter
    type declares: [close[price]] and [close[price2]] go out under their
    bracketed names, [close[ordertype]] does not go out at all. *)
Theorem addStandardOrder_drops_close_ordertype :
  map data (sent (snd (addStandardOrder demo_env demo_order
                         (getClient (Some demo_auth))))) =
  [Some "nonce=1616492376594000&pair=XXBTZUSD&type=buy&ordertype=limit&price=9000&volume=1&close%5Bprice%5D=8000&close%5Bprice2%5D=7900"].
Proof. vm_compute. reflexivity. Qed.

(** The method reads [close[type]], a name the parameter type does not
    have, where the type says [close[ordertype]]: whatever the caller
    puts under [close[ordertype]] changes nothing. *)
Lemma addStandardOrder_ignores_close_ordertype env q v s :
  addStandardOrder env (set q "close[ordertype]" v) s =
  addStandardOrder env q s.
Proof.
  unfold addStandardOrder, shorthand. cbn [map].
  rewrite !get_set_other by reflexivity. reflexivity.
Qed.

Example addStandardOrder_reads_close_type :
  map data (sent (snd (addStandardOrder demo_env
                         [("pair", Str "XXBTZUSD"); ("type", Str "buy");
                          ("ordertype", Str "limit"); ("volume", Num 1);
                          ("close[type]", Str "limit")]
                         (getClient (Some demo_auth))))) =
  [Some "nonce=1616492376594000&pair=XXBTZUSD&type=buy&ordertype=limit&volume=1&close%5Btype%5D=limit"].
Proof. vm_compute. reflexivity. Qed.

(** The five funding methods written after [getDepositMethods]. *)
Definition deposit_family : list (Env -> object -> M IKrakenResponse) :=
  [getStatusOfRecentDeposits; getWithdrawalInformation; withdrawFunds;
   getStatusOfRecentWithdrawals; requestWithdrawalCancellation].

(** The body these methods build. *)
Definition deposit_body (nonce : Z) (queryParams : object) : IPostBody :=
  [("nonce", Num nonce);
   ("aclass", get queryParams "aclass");
   ("asset", get queryParams "asset")].

Lemma deposit_family_run env m q s :
  In m deposit_family ->
  m env q s =
  postToPrivateEndpoint env "DepositMethods"
    (deposit_body (Number_multiply (Date_now env (clock_reads s)) 1000) q)
    None (tick 1 s).
Proof.
  intros Hm. cbn [deposit_family In] in Hm.
  repeat match type of Hm with
         | _ \/ _ => destruct Hm as [<-|Hm]
         | False => destruct Hm
         end;
    match goal with
    | |- ?f env q s = _ => unfold f, bind
    end; rewrite generateNonce_run; reflexivity.
Qed.

(** C9. Each of [getStatusOfRecentDeposits], [getWithdrawalInformation],
    [withdrawFunds], [getStatusOfRecentWithdrawals] and
    [requestWithdrawalCancellation] posts to the private endpoint
    [DepositMethods] a body whose fields are [nonce], [aclass] and
    [asset] and no other; on an authenticated client that is the request
    that goes out; [withdrawFunds] in particular transmits nothing of the
    caller's [key] and [amount]. *)
Theorem deposit_family_posts_DepositMethods (env : Env)
        (m : Env -> object -> M IKrakenResponse) (q : object) (s : State) :
  In m deposit_family ->
  let body_ :=
    deposit_body (Number_multiply (Date_now env (clock_reads s)) 1000) q in
  m env q s =
  postToPrivateEndpoint env "DepositMethods" body_ None (tick 1 s) /\
  keys body_ = ["nonce"; "aclass"; "asset"] /\
  (forall a, auth s = Some a ->
     exists req,
       m env q s =
       (axios_reply env (List.length (sent s)) req,
        dispatched req (tick 1 s)) /\
       url req = Some "/0/private/DepositMethods" /\
       data req = Some (stringify body_)) /\
  (forall key amount,
     withdrawFunds env (set (set q "key" key) "amount" amount) s =
     withdrawFunds env q s).
Proof.
  intros Hm body_. split; [|split; [|split]].
  - now apply deposit_family_run.
  - reflexivity.
  - intros a Ha.
    exists (private_request a "DepositMethods" body_ None).
    rewrite (deposit_family_run env m q s Hm).
    rewrite (postToPrivateEndpoint_authenticated env _ _ _ (tick 1 s) a Ha).
    rewrite axios_run. repeat split; reflexivity.
  - intros key amount.
    rewrite !(deposit_family_run env withdrawFunds)
      by (cbn; tauto).
    unfold deposit_body.
    rewrite !get_set_other by reflexivity. reflexivity.
Qed.

Lemma deposit_family_posts_DepositMethods_witness :
  let q := [("asset", Str "XBT"); ("key", Str "cold wallet");
            ("amount", Num 5)] in
  let s := getClient (Some demo_auth) in
  let body_ :=
    deposit_body (Number_multiply (Date_now demo_env (clock_reads s)) 1000) q
  in
  withdrawFunds demo_env q s =
  postToPrivateEndpoint demo_env "DepositMethods" body_ None (tick 1 s) /\
  keys body_ = ["nonce"; "aclass"; "asset"] /\
  (forall a, auth s = Some a ->
     exists req,
       withdrawFunds demo_env q s =
       (axios_reply demo_env (List.length (sent s)) req,
        dispatched req (tick 1 s)) /\
       url req = Some "/0/private/DepositMethods" /\
       data req = Some (stringify body_)) /\
  (forall key amount,
     withdrawFunds demo_env (set (set q "key" key) "amount" amount) s =
     withdrawFunds demo_env q s).
Proof.
  apply (deposit_family_posts_DepositMethods demo_env withdrawFunds
           [("asset", Str "XBT"); ("key", Str "cold wallet");
            ("amount", Num 5)]
           (getClient (Some demo_auth))).
  cbn [deposit_family In]. tauto.
Defined.

Example withdrawFunds_request :
  map (fun r => (url r, data r))
      (sent (snd (withdrawFunds demo_env
                    [("asset", Str "XBT"); ("key", Str "cold wallet");
                     ("amount", Num 5)]
                    (getClient (Some demo_auth))))) =
  [(Some "/0/private/DepositMethods",
    Some "nonce=1616492376594000&asset=XBT")].
Proof. vm_compute. reflexivity. Qed.

(** C10. Called without its optional parameter object, [getTradeVolume]
    fails with the TypeError raised by reading [fee-info] from
    [undefined]; the nonce has been drawn by then, and nothing has been
    handed to the transport. *)
Theorem getTradeVolume_without_params (env : Env) (s : State) :
  getTradeVolume env None s =
  (Throw (TypeError "Cannot read property 'fee-info' of undefined"),
   tick 1 s) /\
  sent (snd (getTradeVolume env None s)) = sent s.
Proof.
  unfold getTradeVolume, bind. rewrite generateNonce_run.
  split; reflexivity.
Qed.

(** With a parameter object, even an empty one, the call goes through. *)
Example getTradeVolume_with_params :
  map (fun r => (url r, data r))
      (sent (snd (getTradeVolume demo_env
                    (Some [("pair", Str "XBTUSD"); ("fee-info", Bool true)])
                    (getClient (Some demo_auth))))) =
  [(Some "/0/private/TradeVolume",
    Some "nonce=1616492376594000&pair=XBTUSD&fee-info=true")].
Proof. vm_compute. reflexivity. Qed.

End AgentProps.

(* ===================================================================== *)
(** ** All the endpoint methods at once *)
(* ===================================================================== *)

Module EndpointProps.
Import Bytes Js Kraken StringFacts ObjectFacts SignerProps AgentProps.
Local Open Scope string_scope.

(** One method of the client, called with a parameter object: the remote
    endpoint it names, whether it goes through [postToPrivateEndpoint], and
    the properties of its parameter object that it reads. *)
Record endpoint := {
  ep_name    : string;
  ep_private : bool;
  ep_fields  : list string;
  ep_run     : Env -> object -> M IKrakenResponse;
}.

Definition endpoints : list endpoint :=
  [ {| ep_name := "Time"; ep_private := false; ep_fields := [];
       ep_run := fun env _ => getServerTime env |};
    {| ep_name := "Assets"; ep_private := false;
       ep_fields := ["info"; "aclass"; "asset"];
       ep_run := fun env q => getAssetInfo env (Some q) |};
    {| ep_name := "AssetPairs"; ep_private := false;
       ep_fields := ["info"; "pair"];
       ep_run := fun env q => getTradableAssetPairs env (Some q) |};
    {| ep_name := "Ticker"; ep_private := false; ep_fields := ["pair"];
       ep_run := getTickerInformation |};
    {| ep_name := "OHLC"; ep_private := false;
       ep_fields := ["pair"; "interval"; "since"];
       ep_run := getOhlcData |};
    {| ep_name := "Depth"; ep_private := false;
       ep_fields := ["pair"; "count"];
       ep_run := getOrderBook |};
    {| ep_name := "Trades"; ep_private := false;
       ep_fields := ["pair"; "since"];
       ep_run := getRecentTrades |};
    {| ep_name := "Spread"; ep_private := false;
       ep_fields := ["pair"; "since"];
       ep_run := getRecentSpreadData |};
    {| ep_name := "Balance"; ep_private := true; ep_fields := [];
       ep_run := fun env _ => getAccountBalance env |};
    {| ep_name := "TradeBalance"; ep_private := true;
       ep_fields := ["aclass"; "asset"];
       ep_run := fun env q => getTradeBalance env (Some q) |};
    {| ep_name := "OpenOrders"; ep_private := true;
       ep_fields := ["trades"; "userref"];
       ep_run := fun env q => getOpenOrders env (Some q) |};
    {| ep_name := "ClosedOrders"; ep_private := true;
       ep_fields := ["trades"; "userref"; "start"; "end"; "ofs"; "closetime"];
       ep_run := fun env q => getClosedOrders env (Some q) |};
    {| ep_name := "QueryOrders"; ep_private := true;
       ep_fields := ["trades"; "userref"; "txid"];
       ep_run := fun env q => queryOrdersInfo env (Some q) |};
    {| ep_name := "TradesHistory"; ep_private := true;
       ep_fields := ["type"; "trades"; "start"; "end"; "ofs"];
       ep_run := fun env q => getTradesHistory env (Some q) |};
    {| ep_name := "QueryTrades"; ep_private := true;
       ep_fields := ["txid"; "trades"];
       ep_run := queryTradesInfo |};
    {| ep_name := "OpenPositions"; ep_private := true;
       ep_fields := ["txid"; "docalcs"];
       ep_run := getOpenPositions |};
    {| ep_name := "Ledgers"; ep_private := true;
       ep_fields := ["aclass"; "asset"; "type"; "start"; "end"; "ofs"];
       ep_run := fun env q => getLedgersInfo env (Some q) |};
    {| ep_name := "QueryLedgers"; ep_private := true; ep_fields := ["id"];
       ep_run := queryLedgers |};
    {| ep_name := "TradeVolume"; ep_private := true;
       ep_fields := ["pair"; "fee-info"];
       ep_run := fun env q => getTradeVolume env (Some q) |};
    {| ep_name := "AddOrder"; ep_private := true;
       ep_fields := ["pair"; "type"; "ordertype"; "price"; "price2";
                     "volume"; "leverage"; "oflags"; "starttm"; "expiretm";
                     "userref"; "validate"; "close[type]"; "close[price]";
                     "close[price2]"];
       ep_run := addStandardOrder |};
    {| ep_name := "CancelOrder"; ep_private := true; ep_fields := ["txid"];
       ep_run := cancelOpenOrder |};
    {| ep_name := "DepositMethods"; ep_private := true;
       ep_fields := ["aclass"; "asset"];
       ep_run := getDepositMethods |};
    {| ep_name := "DepositAddresses"; ep_private := true;
       ep_fields := ["aclass"; "asset"; "method"; "new"];
       ep_run := getDepositAddresses |};
    {| ep_name := "DepositMethods"; ep_private := true;
       ep_fields := ["aclass"; "asset"];
       ep_run := getStatusOfRecentDeposits |};
    {| ep_name := "DepositMethods"; ep_private := true;
       ep_fields := ["aclass"; "asset"];
       ep_run := getWithdrawalInformation |};
    {| ep_name := "DepositMethods"; ep_private := true;
       ep_fields := ["aclass"; "asset"];
       ep_run := withdrawFunds |};
    {| ep_name := "DepositMethods"; ep_private := true;
       ep_fields := ["aclass"; "asset"];
       ep_run := getStatusOfRecentWithdrawals |};
    {| ep_name := "DepositMethods"; ep_private := true;
       ep_fields := ["aclass"; "asset"];
       ep_run := requestWithdrawalCancellation |} ].

(** Case analysis on the table. *)
Ltac each_endpoint H :=
  cbn [endpoints In] in H;
  repeat match type of H with
         | _ \/ _ => destruct H as [<-|H]
         | False => destruct H
         end.

(** Every private method draws a nonce and posts, to the endpoint it
    names, a body that starts with that nonce. *)
Lemma private_endpoint_run (e : endpoint) :
  In e endpoints ->
  ep_private e = true ->
  exists mk : Z -> object -> IPostBody,
    (forall env q s,
        ep_run e env q s =
        (nonce <- generateNonce env ;;
         postToPrivateEndpoint env (ep_name e) (mk nonce q) None) s) /\
    (forall n q, exists rest, mk n q = ("nonce", Num n) :: rest).
Proof.
  intros He Hp. each_endpoint He; try discriminate Hp;
    (eexists; split;
     [ intros env q s; cbn [ep_run ep_name]; reflexivity
     | intros n q; cbn beta; eexists; reflexivity ]).
Qed.

Lemma public_endpoint_run (e : endpoint) :
  In e endpoints ->
  ep_private e = false ->
  exists mk : object -> option object,
    forall env q s,
      ep_run e env q s = getPublicEndpoint env (ep_name e) (mk q) None s.
Proof.
  intros He Hp. each_endpoint He; try discriminate Hp;
    (eexists; intros env q s; cbn [ep_run ep_name]; reflexivity).
Qed.

Lemma private_path_default (name : string) :
  private_path name None = "/0/private/" ++ name.
Proof. reflexivity. Qed.

Lemma public_uri_default (name : string) (q : option object) :
  public_uri name q None = "/0/public/" ++ name ++ "?" ++ stringify_opt q.
Proof. reflexivity. Qed.

Lemma encode_unreserved (c : ascii) (s : string) :
  unreserved c = true -> encode (String c s) = String c (encode s).
Proof.
  intros Hc. cbn [encode]. unfold encode_char. rewrite Hc. reflexivity.
Qed.

Lemma encode_uint (d : Decimal.uint) :
  encode (NilEmpty.string_of_uint d) = NilEmpty.string_of_uint d.
Proof.
  induction d; cbn [NilEmpty.string_of_uint]; try reflexivity;
    rewrite encode_unreserved by reflexivity; now rewrite IHd.
Qed.

(** Digits and the minus sign are not escaped. *)
Lemma encode_decimal (n : Z) : encode (decimal n) = decimal n.
Proof.
  unfold decimal. destruct (Z.to_int n) as [d|d];
    cbn [NilZero.string_of_int]; unfold NilZero.string_of_uint.
  - destruct d; try reflexivity; apply (encode_uint (_ d)).
  - rewrite encode_unreserved by reflexivity. f_equal.
    destruct d; try reflexivity; apply (encode_uint (_ d)).
Qed.

Lemma append_empty_r (s : string) : s ++ "" = s.
Proof. induction s as [|c s IH]; cbn; [reflexivity | now rewrite IH]. Qed.

Lemma stringify_nonce_first (n : Z) (rest : object) :
  safe_integer n ->
  exists tail,
    stringify (("nonce", Num n) :: rest) = "nonce=" ++ decimal n ++ tail.
Proof.
  intros Hn. unfold stringify.
  cbn [flat_map stringify_pair fst snd to_string].
  rewrite (Number_toString_decimal n Hn), encode_decimal.
  cbn [app]. change (encode "nonce") with "nonce".
  destruct (flat_map stringify_pair rest) as [|x l].
  - exists "". cbn [String.concat String.append].
    now rewrite append_empty_r.
  - exists ("&" ++ String.concat "&" (x :: l)).
    cbn [String.concat String.append]. reflexivity.
Qed.

Definition user_agent : string * value :=
  ("User-Agent",
   Str "Kraken API Client (kraken-cryptoexchange-api node package)").

(** What a private method does, by the state of the credentials. *)
Lemma private_endpoint_outcome env e q s :
  In e endpoints ->
  ep_private e = true ->
  exists body_ rest,
    body_ =
    ("nonce", Num (Number_multiply (Date_now env (clock_reads s)) 1000))
      :: rest /\
    match auth s with
    | None => ep_run e env q s = (Throw NotAuthenticated, tick 1 s)
    | Some a =>
        ep_run e env q s =
        (axios_reply env (List.length (sent s))
                     (private_request a (ep_name e) body_ None),
         dispatched (private_request a (ep_name e) body_ None) (tick 1 s))
    end.
Proof.
  intros He Hp.
  destruct (private_endpoint_run e He Hp) as [mk [Hrun Hmk]].
  destruct (Hmk (Number_multiply (Date_now env (clock_reads s)) 1000) q)
    as [rest Hrest].
  exists (mk (Number_multiply (Date_now env (clock_reads s)) 1000) q), rest.
  split; [exact Hrest|].
  destruct (auth s) as [a|] eqn:Ha;
    rewrite Hrun; unfold bind at 1; rewrite generateNonce_run.
  - rewrite (postToPrivateEndpoint_authenticated env _ _ _ (tick 1 s) a Ha).
    rewrite axios_run. reflexivity.
  - apply postToPrivateEndpoint_unauthenticated. exact Ha.
Qed.

(** X1. Without credentials every private method of the client is rejected
    with the reason of the authentication gate; by then it has read the
    clock once, for the nonce, and nothing has been handed to the
    transport. *)
Theorem private_endpoints_gated (env : Env) (e : endpoint) (q : object)
        (s : State) :
  In e endpoints ->
  ep_private e = true ->
  auth s = None ->
  ep_run e env q s = (Throw NotAuthenticated, tick 1 s) /\
  sent (snd (ep_run e env q s)) = sent s.
Proof.
  intros He Hp Ha.
  destruct (private_endpoint_outcome env e q s He Hp) as [b [rest [_ H]]].
  rewrite Ha in H. rewrite H. split; reflexivity.
Qed.

Lemma private_endpoints_gated_witness :
  addStandardOrder demo_env demo_order (getClient None) =
  (Throw NotAuthenticated, tick 1 (getClient None)) /\
  sent (snd (addStandardOrder demo_env demo_order (getClient None))) =
  sent (getClient None).
Proof.
  apply (private_endpoints_gated demo_env
           {| ep_name := "AddOrder"; ep_private := true;
              ep_fields := ["pair"; "type"; "ordertype"; "price"; "price2";
                            "volume"; "leverage"; "oflags"; "starttm";
                            "expiretm"; "userref"; "validate"; "close[type]";
                            "close[price]"; "close[price2]"];
              ep_run := addStandardOrder |}
           demo_order (getClient None)).
  - cbn [endpoints In]. tauto.
  - reflexivity.
  - reflexivity.
Defined.

(** X2. With credentials, and a clock whose reading times 1000 is a safe
    integer, every private method of the client hands exactly one request
    to the transport: a POST to [/0/private/<endpoint>] whose body starts
    with [nonce=] and the clock reading times 1000 in decimal, under the
    three headers User-Agent, API-Key (the public key) and API-Sign; and
    API-Sign is the exchange's signature of that very path, nonce and
    body under the decoded private key. The transport's answer is the
    method's result. *)
Theorem private_endpoints_send_signed_nonce (env : Env) (e : endpoint)
        (q : object) (s : State) (a : IApiAuth) :
  In e endpoints ->
  ep_private e = true ->
  auth s = Some a ->
  safe_integer (Date_now env (clock_reads s) * 1000) ->
  let n := Date_now env (clock_reads s) * 1000 in
  let path := "/0/private/" ++ ep_name e in
  exists req d tail,
    ep_run e env q s =
    (axios_reply env (List.length (sent s)) req, dispatched req (tick 1 s)) /\
    method req = "POST" /\
    url req = Some path /\
    data req = Some d /\
    d = "nonce=" ++ decimal n ++ tail /\
    headers req =
    [user_agent;
     ("API-Key", Str (publicKey a));
     ("API-Sign",
      Str (signature_bytes path n d (Base64.decode (privateKey a))))].
Proof.
  intros He Hp Ha Hsafe n path.
  destruct (private_endpoint_outcome env e q s He Hp) as [b [rest [Hb H]]].
  rewrite Ha in H.
  rewrite (Number_multiply_safe _ _ Hsafe) in Hb. fold n in Hb.
  assert (Hn : safe_integer n) by exact Hsafe.
  destruct (stringify_nonce_first n rest Hn) as [tail Htail].
  exists (private_request a (ep_name e) b None), (stringify b), tail.
  split; [exact H|]. split; [reflexivity|]. split; [reflexivity|].
  split; [reflexivity|]. split; [now rewrite Hb|].
  unfold private_request. cbn [headers]. rewrite private_path_default.
  rewrite (sign_with_bytes _ b _ n); [reflexivity | | exact Hn].
  rewrite Hb. reflexivity.
Qed.

Lemma private_endpoints_send_signed_nonce_witness :
  let s := getClient (Some demo_auth) in
  let n := Date_now demo_env (clock_reads s) * 1000 in
  let path := "/0/private/" ++ "CancelOrder" in
  exists req d tail,
    cancelOpenOrder demo_env [("txid", Str "OAVY7T-MV5VK-KHDF5X")] s =
    (axios_reply demo_env (List.length (sent s)) req,
     dispatched req (tick 1 s)) /\
    method req = "POST" /\
    url req = Some path /\
    data req = Some d /\
    d = "nonce=" ++ decimal n ++ tail /\
    headers req =
    [user_agent;
     ("API-Key", Str (publicKey demo_auth));
     ("API-Sign",
      Str (signature_bytes path n d (Base64.decode (privateKey demo_auth))))].
Proof.
  apply (private_endpoints_send_signed_nonce demo_env
           {| ep_name := "CancelOrder"; ep_private := true;
              ep_fields := ["txid"]; ep_run := cancelOpenOrder |}
           [("txid", Str "OAVY7T-MV5VK-KHDF5X")]
           (getClient (Some demo_auth)) demo_auth).
  - cbn [endpoints In]. tauto.
  - reflexivity.
  - reflexivity.
  - vm_compute. reflexivity.
Defined.

(** X3. Every public method of the client, whatever the credentials,
    hands exactly one request to the transport without reading the clock:
    a GET of [/0/public/<endpoint>?<query>] with no body and the
    User-Agent header alone, hence neither API-Key nor API-Sign. The
    transport's answer is the method's result. *)
Theorem public_endpoints_carry_no_credentials (env : Env) (e : endpoint)
        (q : object) (s : State) :
  In e endpoints ->
  ep_private e = false ->
  exists req query,
    ep_run e env q s =
    (axios_reply env (List.length (sent s)) req, dispatched req s) /\
    method req = "GET" /\
    url req = Some ("/0/public/" ++ ep_name e ++ "?" ++ query) /\
    data req = None /\
    headers req = [user_agent].
Proof.
  intros He Hp.
  destruct (public_endpoint_run e He Hp) as [mk Hrun].
  exists (public_request (ep_name e) (mk q) None), (stringify_opt (mk q)).
  rewrite Hrun, getPublicEndpoint_run, axios_run.
  repeat split; reflexivity.
Qed.

Lemma public_endpoints_carry_no_credentials_witness :
  exists req query,
    getOhlcData demo_env [("pair", Str "XBTUSD"); ("interval", Num 60)]
                (getClient (Some demo_auth)) =
    (axios_reply demo_env
                 (List.length (sent (getClient (Some demo_auth)))) req,
     dispatched req (getClient (Some demo_auth))) /\
    method req = "GET" /\
    url req = Some ("/0/public/" ++ "OHLC" ++ "?" ++ query) /\
    data req = None /\
    headers req = [user_agent].
Proof.
  apply (public_endpoints_carry_no_credentials demo_env
           {| ep_name := "OHLC"; ep_private := false;
              ep_fields := ["pair"; "interval"; "since"];
              ep_run := getOhlcData |}
           [("pair", Str "XBTUSD"); ("interval", Num 60)]
           (getClient (Some demo_auth))).
  - cbn [endpoints In]. tauto.
  - reflexivity.
Defined.

Example getOhlcData_request :
  map url (sent (snd (getOhlcData demo_env
                        [("pair", Str "XBTUSD"); ("interval", Num 60)]
                        (getClient None)))) =
  [Some "/0/public/OHLC?pair=XBTUSD&interval=60"].
Proof. vm_compute. reflexivity. Qed.

(** *** What a method reads of its parameters *)

Ltac unfold_methods :=
  unfold getServerTime, getAssetInfo, getTradableAssetPairs,
    getTickerInformation, getOhlcData, getOrderBook, getRecentTrades,
    getRecentSpreadData, getAccountBalance, getTradeBalance, getOpenOrders,
    getClosedOrders, queryOrdersInfo, getTradesHistory, queryTradesInfo,
    getOpenPositions, getLedgersInfo, queryLedgers, getTradeVolume,
    addStandardOrder, cancelOpenOrder, getDepositMethods,
    getDepositAddresses, getStatusOfRecentDeposits,
    getWithdrawalInformation, withdrawFunds, getStatusOfRecentWithdrawals,
    requestWithdrawalCancellation, member, shorthand.

(** X4. A method reads the properties of its parameter object that it
    names and no other: setting any other property (a misspelt name, a
    [nonce] of the caller's, [key] and [amount] for [withdrawFunds],
    [close[ordertype]] for [addStandardOrder]) leaves the call, request
    and result, exactly as it was. *)
Theorem endpoint_reads_named_fields_only (env : Env) (e : endpoint)
        (q : object) (k : string) (v : value) (s : State) :
  In e endpoints ->
  existsb (String.eqb k) (ep_fields e) = false ->
  ep_run e env (set q k v) s = ep_run e env q s.
Proof.
  intros He Hk. each_endpoint He; cbn [ep_fields existsb] in Hk;
    repeat (apply orb_false_iff in Hk; destruct Hk as [? Hk]);
    cbn [ep_run]; unfold_methods; cbn [map];
    rewrite ?get_set_other by assumption; reflexivity.
Qed.

Lemma endpoint_reads_named_fields_only_witness :
  withdrawFunds demo_env (set [("asset", Str "XBT")] "amount" (Num 5))
                (getClient (Some demo_auth)) =
  withdrawFunds demo_env [("asset", Str "XBT")] (getClient (Some demo_auth)).
Proof.
  apply (endpoint_reads_named_fields_only demo_env
           {| ep_name := "DepositMethods"; ep_private := true;
              ep_fields := ["aclass"; "asset"];
              ep_run := withdrawFunds |}
           [("asset", Str "XBT")] "amount" (Num 5)
           (getClient (Some demo_auth))).
  - cbn [endpoints In]. tauto.
  - reflexivity.
Defined.

(** What is signed and sent depends on the body through its query string
    and its nonce only. *)
Lemma postToPrivateEndpoint_ext env name (b1 b2 : IPostBody) ov s :
  stringify b1 = stringify b2 ->
  get b1 "nonce" = get b2 "nonce" ->
  postToPrivateEndpoint env name b1 ov s =
  postToPrivateEndpoint env name b2 ov s.
Proof.
  intros Hq Hn. destruct (auth s) as [a|] eqn:Ha.
  - rewrite !(postToPrivateEndpoint_authenticated env _ _ _ s a Ha).
    unfold private_request, sign_with. now rewrite Hq, Hn.
  - now rewrite !(postToPrivateEndpoint_unauthenticated env _ _ _ s Ha).
Qed.

(** The methods that test their parameter object before reading it, with
    the properties they read. *)
Definition optional_methods
  : list (list string * (Env -> option object -> M IKrakenResponse)) :=
  [ (["info"; "aclass"; "asset"], getAssetInfo);
    (["info"; "pair"], getTradableAssetPairs);
    (["aclass"; "asset"], getTradeBalance);
    (["trades"; "userref"], getOpenOrders);
    (["trades"; "userref"; "start"; "end"; "ofs"; "closetime"],
     getClosedOrders);
    (["trades"; "userref"; "txid"], queryOrdersInfo);
    (["type"; "trades"; "start"; "end"; "ofs"], getTradesHistory);
    (["aclass"; "asset"; "type"; "start"; "end"; "ofs"], getLedgersInfo) ].

(** X5. For the methods that test their parameter object, leaving the
    object out and passing one that has none of the properties the method
    reads are the same call: a property that is [undefined] is not written
    into the query string, so the same request, with the same signature,
    goes out. *)
Theorem absent_fields_same_as_no_parameters (env : Env) (fs : list string)
        (m : Env -> option object -> M IKrakenResponse) (q : object)
        (s : State) :
  In (fs, m) optional_methods ->
  (forall f, In f fs -> get q f = Undefined) ->
  m env (Some q) s = m env None s.
Proof.
  intros Hm Hq. cbn [optional_methods In] in Hm.
  repeat match type of Hm with
         | _ \/ _ => destruct Hm as [Hm|Hm]
         | False => destruct Hm
         end;
    injection Hm as <- <-; unfold_methods; cbn [map];
    rewrite !Hq by (cbn [In]; tauto);
    try reflexivity;
    unfold bind; rewrite generateNonce_run;
    apply postToPrivateEndpoint_ext; reflexivity.
Qed.

Lemma absent_fields_same_as_no_parameters_witness :
  getClosedOrders demo_env (Some []) (getClient (Some demo_auth)) =
  getClosedOrders demo_env None (getClient (Some demo_auth)).
Proof.
  apply (absent_fields_same_as_no_parameters demo_env
           ["trades"; "userref"; "start"; "end"; "ofs"; "closetime"]
           getClosedOrders [] (getClient (Some demo_auth))).
  - cbn [optional_methods In]. tauto.
  - intros f Hf. reflexivity.
Defined.

(** *** Calls in sequence *)

Lemma private_endpoint_authenticated (e : endpoint) :
  In e endpoints ->
  ep_private e = true ->
  exists mk : Z -> object -> IPostBody,
    forall env q s a,
      auth s = Some a ->
      let req :=
        private_request a (ep_name e)
          (mk (Number_multiply (Date_now env (clock_reads s)) 1000) q) None in
      ep_run e env q s =
      (axios_reply env (List.length (sent s)) req,
       dispatched req (tick 1 s)).
Proof.
  intros He Hp.
  destruct (private_endpoint_run e He Hp) as [mk [Hrun _]].
  exists mk. intros env q s a Ha req.
  rewrite Hrun. unfold bind at 1. rewrite generateNonce_run.
  rewrite (postToPrivateEndpoint_authenticated env _ _ _ (tick 1 s) a Ha).
  rewrite axios_run. reflexivity.
Qed.

(** X6. Two calls of a private method with the same parameters that read
    the same millisecond off the clock hand the transport two identical
    requests, nonce and signature included: the second is a replay of the
    first. *)
Theorem same_tick_calls_send_identical_requests (env : Env) (e : endpoint)
        (q : object) (s : State) (a : IApiAuth) :
  In e endpoints ->
  ep_private e = true ->
  auth s = Some a ->
  Date_now env (clock_reads s + 1) = Date_now env (clock_reads s) ->
  let s1 := snd (ep_run e env q s) in
  let s2 := snd (ep_run e env q s1) in
  exists req, sent s2 = (sent s ++ [req; req])%list.
Proof.
  intros He Hp Ha Hclock s1 s2.
  destruct (private_endpoint_authenticated e He Hp) as [mk Hrun].
  pose proof (Hrun env q s a Ha) as H1. cbv zeta in H1.
  assert (Hs1 : s1 = dispatched
                       (private_request a (ep_name e)
                          (mk (Number_multiply
                                 (Date_now env (clock_reads s)) 1000) q)
                          None)
                       (tick 1 s)).
  { unfold s1. now rewrite H1. }
  assert (Ha1 : auth s1 = Some a) by (rewrite Hs1; exact Ha).
  pose proof (Hrun env q s1 a Ha1) as H2. cbv zeta in H2.
  exists (private_request a (ep_name e)
            (mk (Number_multiply (Date_now env (clock_reads s)) 1000) q)
            None).
  unfold s2. rewrite H2. cbn [snd dispatched sent].
  rewrite Hs1 at 1 2. cbn [dispatched tick sent clock_reads].
  rewrite Hclock, <- app_assoc. reflexivity.
Qed.

Lemma same_tick_calls_send_identical_requests_witness :
  let s := getClient (Some demo_auth) in
  let s1 := snd (getAccountBalance demo_env s) in
  let s2 := snd (getAccountBalance demo_env s1) in
  exists req, sent s2 = (sent s ++ [req; req])%list.
Proof.
  apply (same_tick_calls_send_identical_requests demo_env
           {| ep_name := "Balance"; ep_private := true; ep_fields := [];
              ep_run := fun env _ => getAccountBalance env |}
           [] (getClient (Some demo_auth)) demo_auth).
  - cbn [endpoints In]. tauto.
  - reflexivity.
  - reflexivity.
  - reflexivity.
Defined.

(** X7. No method of the client changes the credentials, and none rewrites
    or retries: after a call the requests sent before are still there,
    followed by at most one new request, and the clock has been read at
    most once. *)
Theorem endpoint_calls_keep_credentials_and_log (env : Env) (e : endpoint)
        (q : object) (s : State) :
  In e endpoints ->
  let s' := snd (ep_run e env q s) in
  auth s' = auth s /\
  (exists l, sent s' = (sent s ++ l)%list /\ (List.length l <= 1)%nat) /\
  (clock_reads s <= clock_reads s' <= clock_reads s + 1)%nat.
Proof.
  intros He s'. destruct (ep_private e) eqn:Hp.
  - destruct (private_endpoint_outcome env e q s He Hp) as [b [rest [_ H]]].
    destruct (auth s) as [a|] eqn:Ha; unfold s'; rewrite H;
      cbn [snd dispatched tick auth sent clock_reads].
    + split; [now rewrite Ha|]. split; [|lia].
      eexists. split; [reflexivity | cbn; lia].
    + split; [now rewrite Ha|]. split; [|lia].
      exists []. split; [now rewrite app_nil_r | cbn; lia].
  - destruct (public_endpoint_run e He Hp) as [mk H].
    unfold s'. rewrite H, getPublicEndpoint_run, axios_run.
    cbn [snd dispatched auth sent clock_reads].
    split; [reflexivity|]. split; [|lia].
    eexists. split; [reflexivity | cbn; lia].
Qed.

Lemma endpoint_calls_keep_credentials_and_log_witness :
  let s := getClient (Some demo_auth) in
  let s' := snd (getTradeVolume demo_env (Some [("pair", Str "XBTUSD")]) s) in
  auth s' = auth s /\
  (exists l, sent s' = (sent s ++ l)%list /\ (List.length l <= 1)%nat) /\
  (clock_reads s <= clock_reads s' <= clock_reads s + 1)%nat.
Proof.
  apply (endpoint_calls_keep_credentials_and_log demo_env
           {| ep_name := "TradeVolume"; ep_private := true;
              ep_fields := ["pair"; "fee-info"];
              ep_run := fun env q => getTradeVolume env (Some q) |}
           [("pair", Str "XBTUSD")] (getClient (Some demo_auth))).
  cbn [endpoints In]. tauto.
Defined.

End EndpointProps.

(* ===================================================================== *)
(** ** The signature and the body on the wire *)
(* ===================================================================== *)

Module WireProps.
Import Bytes Js Kraken StringFacts ObjectFacts SignerProps AgentProps.
Local Open Scope string_scope.

(** *** The size of a signature *)

Lemma be_bytes_length (n : nat) (z : Z) : List.length (be_bytes n z) = n.
Proof. induction n as [|n IH]; cbn [be_bytes List.length]; congruence. Qed.

Lemma round_length p st kw :
  List.length st = 8%nat -> List.length (Sha2.round p st kw) = 8%nat.
Proof.
  intros H.
  destruct st as [|a [|b [|c [|d [|e [|f [|g [|h [|i st]]]]]]]]];
    try discriminate H.
  reflexivity.
Qed.

Lemma rounds_length p l : forall st,
  List.length st = 8%nat ->
  List.length (fold_left (Sha2.round p) l st) = 8%nat.
Proof.
  induction l as [|kw l IH]; intros st H; cbn [fold_left]; [exact H|].
  apply IH. now apply round_length.
Qed.

Lemma compress_length p K h block :
  List.length h = 8%nat -> List.length (Sha2.compress p K h block) = 8%nat.
Proof.
  intros H. unfold Sha2.compress.
  rewrite length_map, length_combine, H, rounds_length by exact H.
  reflexivity.
Qed.

Lemma digest_words_length p K H0 msg :
  List.length H0 = 8%nat ->
  List.length (Sha2.digest_words p K H0 msg) = 8%nat.
Proof.
  intros H. unfold Sha2.digest_words.
  generalize (chunks
                (List.length (Sha2.words_of p (Sha2.pad p msg))) 16
                (Sha2.words_of p (Sha2.pad p msg))).
  intros blocks. revert H0 H.
  induction blocks as [|b blocks IH]; intros H0 H; cbn [fold_left];
    [exact H|].
  apply IH. now apply compress_length.
Qed.

(** SHA-512 always yields 64 bytes. *)
Lemma sha512_length (msg : Buffer) : List.length (Sha2.sha512 msg) = 64%nat.
Proof.
  unfold Sha2.sha512, Sha2.digest. rewrite length_map.
  rewrite (flat_map_constant_length (c := 8)).
  - rewrite digest_words_length by reflexivity. reflexivity.
  - intros x _. apply be_bytes_length.
Qed.

Lemma hmac_sha512_length (key msg : Buffer) :
  List.length (Hmac.hmac_sha512 key msg) = 64%nat.
Proof. unfold Hmac.hmac_sha512, Hmac.hmac. apply sha512_length. Qed.

(** Base64 writes four characters for every three bytes begun. *)
Lemma encode_Z_length (bs : list Z) :
  String.length (Base64.encode_Z bs) = (4 * ((List.length bs + 2) / 3))%nat.
Proof.
  induction bs as [|a|a b|a b c r IH] using Base64Facts.triples_ind;
    try reflexivity.
  cbn [Base64.encode_Z String.length List.length]. rewrite IH.
  replace (S (S (S (List.length r))) + 2)%nat
    with (List.length r + 2 + 1 * 3)%nat by lia.
  rewrite Nat.div_add by discriminate. lia.
Qed.

(** X8. Whatever the path, the body and the key, the signature
    [signMessage] returns, the value of the API-Sign header, is 88
    characters long: the base64 of the 64 bytes of an HMAC-SHA512. *)
Theorem signature_is_88_characters (path : string) (postBody : IPostBody)
        (privateKey : string) :
  exists sig,
    signMessage path postBody privateKey = Normal sig /\
    String.length sig = 88%nat.
Proof.
  eexists. split; [apply signMessage_unfold|].
  unfold sign_with, Base64.encode.
  rewrite encode_Z_length, length_map, hmac_sha512_length. reflexivity.
Qed.

(** *** One pair per property *)

(** How often [c] occurs in [s]. *)
Definition occurrences (c : ascii) (s : string) : nat :=
  List.length (filter (Ascii.eqb c) (list_ascii_of_string s)).

(** The properties that hold something else than [undefined]. *)
Definition defined (o : object) : object :=
  filter (fun kv => match snd kv with Undefined => false | _ => true end) o.

Lemma occurrences_app c (s t : string) :
  occurrences c (s ++ t) = (occurrences c s + occurrences c t)%nat.
Proof.
  unfold occurrences. now rewrite list_ascii_app, filter_app, length_app.
Qed.

Lemma encode_char_clean (c : ascii) :
  occurrences "&" (encode_char c) = 0%nat /\
  occurrences "=" (encode_char c) = 0%nat.
Proof.
  destruct c as [[|] [|] [|] [|] [|] [|] [|] [|]]; vm_compute;
    split; reflexivity.
Qed.

(** Escaping leaves neither [&] nor [=] behind. *)
Lemma encode_clean (s : string) :
  occurrences "&" (encode s) = 0%nat /\ occurrences "=" (encode s) = 0%nat.
Proof.
  induction s as [|c s [IH1 IH2]]; [split; reflexivity|].
  cbn [encode]. change (String.append ?a ?b) with (a ++ b).
  rewrite !occurrences_app, IH1, IH2.
  destruct (encode_char_clean c) as [-> ->]. split; reflexivity.
Qed.

(** A written pair has its one [=] and no [&]. *)
Definition one_pair (x : string) : Prop :=
  occurrences "=" x = 1%nat /\ occurrences "&" x = 0%nat.

Lemma pair_of_encoded (k v : string) : one_pair (encode k ++ "=" ++ encode v).
Proof.
  unfold one_pair. rewrite !occurrences_app.
  destruct (encode_clean k) as [-> ->]. destruct (encode_clean v) as [-> ->].
  split; reflexivity.
Qed.

Lemma stringify_pair_written (kv : string * value) :
  Forall one_pair (stringify_pair kv) /\
  List.length (stringify_pair kv) = List.length (defined [kv]).
Proof.
  destruct kv as [k v]. unfold stringify_pair, defined.
  cbn [fst snd filter].
  destruct v; cbn [List.length]; split; try reflexivity;
    repeat constructor; try apply pair_of_encoded.
  - apply (pair_of_encoded k "").
  - apply (pair_of_encoded k "").
Qed.

Lemma stringify_pairs_written (o : object) :
  Forall one_pair (flat_map stringify_pair o) /\
  List.length (flat_map stringify_pair o) = List.length (defined o).
Proof.
  induction o as [|kv o [IHF IHL]]; [split; [constructor | reflexivity]|].
  destruct (stringify_pair_written kv) as [HF HL].
  cbn [flat_map]. split.
  - apply Forall_app. split; assumption.
  - rewrite length_app, HL, IHL. unfold defined. cbn [filter].
    destruct (snd kv); reflexivity.
Qed.

Lemma concat_pairs (l : list string) :
  Forall one_pair l ->
  occurrences "=" (String.concat "&" l) = List.length l /\
  occurrences "&" (String.concat "&" l) = pred (List.length l).
Proof.
  intros H. induction H as [|x l [Hx1 Hx2] Hl [IH1 IH2]];
    [split; reflexivity|].
  destruct l as [|y l].
  - cbn [String.concat List.length pred]. split; assumption.
  - change (String.concat "&" (x :: y :: l))
      with (x ++ "&" ++ String.concat "&" (y :: l)).
    rewrite !occurrences_app, Hx1, Hx2, IH1, IH2.
    cbn [List.length pred]. split; reflexivity.
Qed.

(** X9. The body a private call transmits has exactly one [key=value]
    pair for each property of the supplied body that is not [undefined],
    the pairs separated by [&]: whatever characters the names and the
    values contain, they are escaped and can neither add a pair nor split
    one. *)
Theorem one_pair_per_defined_property (env : Env) (endpoint : string)
        (data_ : IPostBody) (configOverride : option object) (s : State)
        (a : IApiAuth) :
  auth s = Some a ->
  exists req d,
    postToPrivateEndpoint env endpoint data_ configOverride s =
    (axios_reply env (List.length (sent s)) req, dispatched req s) /\
    data req = Some d /\
    occurrences "=" d = List.length (defined data_) /\
    occurrences "&" d = pred (List.length (defined data_)).
Proof.
  intros Ha.
  exists (private_request a endpoint data_ configOverride), (stringify data_).
  rewrite (postToPrivateEndpoint_authenticated env _ _ _ s a Ha), axios_run.
  split; [reflexivity|]. split; [reflexivity|].
  unfold stringify.
  destruct (stringify_pairs_written data_) as [HF HL].
  destruct (concat_pairs _ HF) as [H1 H2]. now rewrite H1, H2, HL.
Qed.

Lemma one_pair_per_defined_property_witness :
  let body_ := [("nonce", Num 42); ("userref", Undefined);
                ("txid", Str "a&b=c")] in
  exists req d,
    postToPrivateEndpoint demo_env "QueryOrders" body_ None
                          (getClient (Some demo_auth)) =
    (axios_reply demo_env (List.length (sent (getClient (Some demo_auth))))
                 req,
     dispatched req (getClient (Some demo_auth))) /\
    data req = Some d /\
    occurrences "=" d = List.length (defined body_) /\
    occurrences "&" d = pred (List.length (defined body_)).
Proof.
  apply (one_pair_per_defined_property demo_env "QueryOrders"
           [("nonce", Num 42); ("userref", Undefined); ("txid", Str "a&b=c")]
           None (getClient (Some demo_auth)) demo_auth).
  reflexivity.
Defined.

Example escaped_value_on_the_wire :
  stringify [("nonce", Num 42); ("userref", Undefined);
             ("txid", Str "a&b=c")] = "nonce=42&txid=a%26b%3Dc".
Proof. vm_compute. reflexivity. Qed.

(** *** The key *)

Lemma sextets_skip (k1 k2 : string) (c : ascii) :
  Base64.unbase64 c = None ->
  c <> "="%char ->
  Base64.sextets (k1 ++ String c k2) = Base64.sextets (k1 ++ k2).
Proof.
  intros Hc Hne. induction k1 as [|x k1 IH].
  - cbn [String.append Base64.sextets]. rewrite Hc.
    destruct (Ascii.eqb_spec c "="%char); [contradiction | reflexivity].
  - cbn [String.append Base64.sextets]. rewrite IH. reflexivity.
Qed.

(** X10. A character of the private key that is neither of the base64
    alphabet nor [=] (a space, a line break, a quote) has no effect on the
    signature, wherever it stands in the key. *)
Theorem signMessage_ignores_stray_key_characters (path : string)
        (postBody : IPostBody) (k1 k2 : string) (c : ascii) :
  Base64.unbase64 c = None ->
  c <> "="%char ->
  signMessage path postBody (k1 ++ String c k2) =
  signMessage path postBody (k1 ++ k2).
Proof.
  intros Hc Hne. rewrite !signMessage_unfold. unfold Base64.decode.
  now rewrite (sextets_skip k1 k2 c Hc Hne).
Qed.

Lemma signMessage_ignores_stray_key_characters_witness :
  signMessage "/0/private/Balance" [("nonce", Num 1616492376594000)]
              ("cHJpdmF0" ++ String "010" "ZWtleQ==") =
  signMessage "/0/private/Balance" [("nonce", Num 1616492376594000)]
              ("cHJpdmF0" ++ "ZWtleQ==").
Proof.
  apply (signMessage_ignores_stray_key_characters "/0/private/Balance"
           [("nonce", Num 1616492376594000)] "cHJpdmF0" "ZWtleQ==" "010").
  - reflexivity.
  - discriminate.
Defined.

(** *** A body without nonce *)

(** X11. [signMessage] does not check that the body has a [nonce]: for a
    body without that property it signs all the same, and what it hashes
    in the place of the nonce is the text [undefined]. *)
Theorem signMessage_without_nonce (path : string) (postBody : IPostBody)
        (privateKey : string) :
  has postBody "nonce" = false ->
  signMessage path postBody privateKey =
  Normal
    (Base64.encode
       (Hmac.hmac_sha512 (Base64.decode privateKey)
          (list_byte_of_string path
             ++ Sha2.sha256
                  (list_byte_of_string ("undefined" ++ stringify postBody)))%list)).
Proof.
  intros Hn. rewrite signMessage_unfold. unfold sign_with, plus_string.
  rewrite (get_absent postBody "nonce" Hn). cbn [to_string].
  rewrite latin1_encode_app, latin1_round_trip.
  rewrite utf8_encode_ascii
    by (rewrite is_ascii_app, is_ascii_stringify; reflexivity).
  reflexivity.
Qed.

Lemma signMessage_without_nonce_witness :
  signMessage "/0/private/Balance" [("pair", Str "XBTUSD")]
              "cHJpdmF0ZWtleQ==" =
  Normal
    (Base64.encode
       (Hmac.hmac_sha512 (Base64.decode "cHJpdmF0ZWtleQ==")
          (list_byte_of_string "/0/private/Balance"
             ++ Sha2.sha256
                  (list_byte_of_string
                     ("undefined" ++ stringify [("pair", Str "XBTUSD")])))%list)).
Proof.
  apply (signMessage_without_nonce "/0/private/Balance"
           [("pair", Str "XBTUSD")] "cHJpdmF0ZWtleQ==").
  reflexivity.
Defined.

(** *** The override *)

(** X12. A per-call [configOverride] acts on a request through its
    [version] and through nothing else: two overrides, or an override and
    none, under which the merged [version] is the same give the same
    call, whatever else they set ([rootUrl], [timeout], any property of
    an axios configuration). *)
Theorem override_acts_through_version_only (env : Env) (endpoint : string)
        (queryParams : option object) (data_ : IPostBody)
        (ov1 ov2 : option object) (s : State) :
  get (merged ov1) "version" = get (merged ov2) "version" ->
  getPublicEndpoint env endpoint queryParams ov1 s =
  getPublicEndpoint env endpoint queryParams ov2 s /\
  postToPrivateEndpoint env endpoint data_ ov1 s =
  postToPrivateEndpoint env endpoint data_ ov2 s.
Proof.
  intros Hv. split.
  - rewrite !getPublicEndpoint_run. unfold public_request, public_uri.
    now rewrite Hv.
  - destruct (auth s) as [a|] eqn:Ha.
    + rewrite !(postToPrivateEndpoint_authenticated env _ _ _ s a Ha).
      unfold private_request, private_path. now rewrite Hv.
    + now rewrite !(postToPrivateEndpoint_unauthenticated env _ _ _ s Ha).
Qed.

Lemma override_acts_through_version_only_witness :
  let ov := Some [("rootUrl", Str "https://example.test");
                  ("timeout", Num 1)] in
  getPublicEndpoint demo_env "Time" None ov (getClient (Some demo_auth)) =
  getPublicEndpoint demo_env "Time" None None (getClient (Some demo_auth)) /\
  postToPrivateEndpoint demo_env "Time" [("nonce", Num 42)] ov
                        (getClient (Some demo_auth)) =
  postToPrivateEndpoint demo_env "Time" [("nonce", Num 42)] None
                        (getClient (Some demo_auth)).
Proof.
  apply (override_acts_through_version_only demo_env "Time" None
           [("nonce", Num 42)]
           (Some [("rootUrl", Str "https://example.test");
                  ("timeout", Num 1)])
           None (getClient (Some demo_auth))).
  reflexivity.
Defined.

End WireProps.
